(** * StratoCore_RATS: the flight sub-state machine and the telecommand handler

    A shallow embedding of [src/Flight.cpp], [src/TCHandler.cpp] and the
    declarations of [src/StratoRats.h].  The instrument object is a record,
    member functions are computations in a small state-and-output monad, and
    every call that leaves the object (log sinks, Zephyr telemetry, the
    scheduler, the MCB serial link, the EEPROM wrappers) is recorded as an
    event in the order the code makes it. *)

From Stdlib Require Import ZArith List String Bool Lia.
Import ListNotations.
Open Scope Z_scope.

(** ** Constants of StratoRats.h *)

Definition RATS_REPORT_PERIOD_SECS : Z := 360.
Definition NUM_ECU_REPORTS : Z := 180.
Definition RATS_HEADER_SIZE_BITS : Z := 8 + 16 + 16 + 1 + 13.
Definition RATS_HEADER_SIZE_BYTES : Z := 7.
Definition LORA_MSG_COUNT : Z := 3.
Definition LORA_WARMUP_MSG_TIMEOUT : Z := 15.
Definition FLAG_STALE : Z := 3.
Definition MCB_RESEND_TIMEOUT : Z := 10.
Definition ZEPHYR_RESEND_TIMEOUT : Z := 60.

(** [ECU_REPORT_SIZE_BYTES] comes from ECUReport.h, which this development
    does not cover; the macro is a function of it. *)
Definition RATS_REPORT_MAX_BYTES (ECU_REPORT_SIZE_BYTES : Z) : Z :=
  RATS_HEADER_SIZE_BYTES + (NUM_ECU_REPORTS + 1) * ECU_REPORT_SIZE_BYTES.

(** The preprocessor evaluates the expression of an [#if] in [intmax_t]:
    64 bits, two's complement.  [intmax z] is the value a result [z] wraps
    to. *)
Definition intmax (z : Z) : Z := (z + 2 ^ 63) mod 2 ^ 64 - 2 ^ 63.

(** The preprocessor guard
    [#if RATS_REPORT_MAX_BYTES > 8192 / #error ... / #endif], with the macro
    expanded and every operation carried out in [intmax_t]: [true] when the
    header gets past it. *)
Definition tm_buffer_guard (ECU_REPORT_SIZE_BYTES : Z) : bool :=
  negb (intmax (RATS_HEADER_SIZE_BYTES
                + intmax (intmax (NUM_ECU_REPORTS + 1)
                          * intmax ECU_REPORT_SIZE_BYTES))
        >? 8192).

(** ** Enumerations *)

(** [ScheduleAction_t].  The last three identifiers are used by Flight.cpp
    ([ACTION_SEND_STATUS], [ACTION_LORA_WAIT_MSG], [ACTION_SIM_LORA_MSG]) but
    the enumeration of StratoRats.h does not list them; they are further
    members of the same flag table. *)
Inductive ScheduleAction_t : Type :=
| NO_ACTION
| SEND_IMR
| RESEND_RA
| RESEND_MOTION_COMMAND
| RESEND_TM
| RESEND_SAFETY
| ACTION_START_TELEMETRY
| ACTION_GPS_WAIT_MSG
| ACTION_LORA_COUNT_MSGS
| ACTION_RATS_REPORT
| ACTION_REEL_OUT
| ACTION_REEL_IN
| ACTION_IN_NO_LW
| ACTION_MOTION_STOP
| ACTION_MOTION_TIMEOUT
| ACTION_SEND_STATUS
| ACTION_LORA_WAIT_MSG
| ACTION_SIM_LORA_MSG.

Definition ScheduleAction_eq_dec (a b : ScheduleAction_t) : {a = b} + {a <> b}.
Proof. decide equality. Defined.

Inductive MCBMotion_t : Type :=
| NO_MOTION
| MOTION_REEL_IN
| MOTION_REEL_OUT
| MOTION_IN_NO_LW.

Inductive WarmupStatus_t : Type :=
| WARMUP_NOT_STARTED
| WARMUP_INPROCESS
| WARMUP_FAILED
| WARMUP_COMPLETE.

(** Log levels of the host framework; [LOG_NONE] stands for every level
    other than the three the handler names. *)
Inductive LOG_LEVEL_t : Type :=
| LOG_DEBUG
| LOG_NOMINAL
| LOG_ERROR
| LOG_NONE.

(** Telecommand identifiers: the ones [TCHandler] has a case for, and
    [OTHER_TC code] for any other value of the enumeration. *)
Inductive Telecommand_t : Type :=
| DEPLOYx
| DEPLOYv
| DEPLOYa
| RETRACTx
| RETRACTv
| RETRACTa
| FULLRETRACT
| CANCELMOTION
| ZEROREEL
| TORQUELIMITS
| CURRLIMITS
| IGNORELIMITS
| USELIMITS
| GETMCBEEPROM
| GETMCBVOLTS
| RATSDATAPROCTYPE
| RATSREALTIMEMCBON
| RATSREALTIMEMCBOFF
| RATSGETEEPROM
| OTHER_TC (code : Z).

(** ASCII commands sent with [mcbComm.TX_ASCII]. *)
Inductive MCBMessages_t : Type :=
| MCB_CANCEL_MOTION
| MCB_ZERO_REEL
| MCB_IGNORE_LIMITS
| MCB_USE_LIMITS
| MCB_GET_EEPROM
| MCB_GET_VOLTAGES.

(** ** Data *)

(** A C [float] is carried as its 32-bit pattern: the code only copies and
    prints the values, it never computes with them. *)
Definition float : Type := Z.

Record MCB_Param_t : Type := {
  deployLen : float;
  deployVel : float;
  deployAcc : float;
  retractLen : float;
  retractVel : float;
  retractAcc : float;
  torqueLimits : float * float;
  currLimits : float * float
}.

Record RATS_Param_t : Type := {
  data_proc_method : Z
}.

Record ActionFlag_t : Type := {
  flag_value : bool;
  stale_count : Z
}.

(** The members of [StratoRATS] (and of its base [StratoCore]) that
    Flight.cpp and TCHandler.cpp read or write. *)
Record StratoRATS : Type := {
  inst_substate : Z;                               (* uint8_t, StratoCore *)
  time_valid : bool;                               (* StratoCore *)
  mcbParam : MCB_Param_t;                          (* StratoCore *)
  ratsParam : RATS_Param_t;                        (* StratoCore *)
  action_flags : ScheduleAction_t -> ActionFlag_t; (* [NUM_ACTIONS] *)
  flight_mode_substate : Z;
  total_lora_count : Z;                            (* uint32_t *)
  lora_count : Z;                                  (* uint32_t *)
  warmup_status : WarmupStatus_t;
  warmup_cycles : Z;
  deploy_length : float;
  retract_length : float;
  mcb_motion_ongoing : bool;
  mcb_motion : MCBMotion_t
}.

Definition set_inst_substate (v : Z) (s : StratoRATS) : StratoRATS :=
  {| inst_substate := v; time_valid := time_valid s; mcbParam := mcbParam s;
     ratsParam := ratsParam s; action_flags := action_flags s;
     flight_mode_substate := flight_mode_substate s;
     total_lora_count := total_lora_count s; lora_count := lora_count s;
     warmup_status := warmup_status s; warmup_cycles := warmup_cycles s;
     deploy_length := deploy_length s; retract_length := retract_length s;
     mcb_motion_ongoing := mcb_motion_ongoing s; mcb_motion := mcb_motion s |}.

Definition set_action_flags (v : ScheduleAction_t -> ActionFlag_t)
  (s : StratoRATS) : StratoRATS :=
  {| inst_substate := inst_substate s; time_valid := time_valid s;
     mcbParam := mcbParam s; ratsParam := ratsParam s; action_flags := v;
     flight_mode_substate := flight_mode_substate s;
     total_lora_count := total_lora_count s; lora_count := lora_count s;
     warmup_status := warmup_status s; warmup_cycles := warmup_cycles s;
     deploy_length := deploy_length s; retract_length := retract_length s;
     mcb_motion_ongoing := mcb_motion_ongoing s; mcb_motion := mcb_motion s |}.

Definition set_flight_mode_substate (v : Z) (s : StratoRATS) : StratoRATS :=
  {| inst_substate := inst_substate s; time_valid := time_valid s;
     mcbParam := mcbParam s; ratsParam := ratsParam s;
     action_flags := action_flags s; flight_mode_substate := v;
     total_lora_count := total_lora_count s; lora_count := lora_count s;
     warmup_status := warmup_status s; warmup_cycles := warmup_cycles s;
     deploy_length := deploy_length s; retract_length := retract_length s;
     mcb_motion_ongoing := mcb_motion_ongoing s; mcb_motion := mcb_motion s |}.

Definition set_total_lora_count (v : Z) (s : StratoRATS) : StratoRATS :=
  {| inst_substate := inst_substate s; time_valid := time_valid s;
     mcbParam := mcbParam s; ratsParam := ratsParam s;
     action_flags := action_flags s;
     flight_mode_substate := flight_mode_substate s;
     total_lora_count := v; lora_count := lora_count s;
     warmup_status := warmup_status s; warmup_cycles := warmup_cycles s;
     deploy_length := deploy_length s; retract_length := retract_length s;
     mcb_motion_ongoing := mcb_motion_ongoing s; mcb_motion := mcb_motion s |}.

Definition set_lora_count (v : Z) (s : StratoRATS) : StratoRATS :=
  {| inst_substate := inst_substate s; time_valid := time_valid s;
     mcbParam := mcbParam s; ratsParam := ratsParam s;
     action_flags := action_flags s;
     flight_mode_substate := flight_mode_substate s;
     total_lora_count := total_lora_count s; lora_count := v;
     warmup_status := warmup_status s; warmup_cycles := warmup_cycles s;
     deploy_length := deploy_length s; retract_length := retract_length s;
     mcb_motion_ongoing := mcb_motion_ongoing s; mcb_motion := mcb_motion s |}.

Definition set_deploy_length (v : float) (s : StratoRATS) : StratoRATS :=
  {| inst_substate := inst_substate s; time_valid := time_valid s;
     mcbParam := mcbParam s; ratsParam := ratsParam s;
     action_flags := action_flags s;
     flight_mode_substate := flight_mode_substate s;
     total_lora_count := total_lora_count s; lora_count := lora_count s;
     warmup_status := warmup_status s; warmup_cycles := warmup_cycles s;
     deploy_length := v; retract_length := retract_length s;
     mcb_motion_ongoing := mcb_motion_ongoing s; mcb_motion := mcb_motion s |}.

Definition set_retract_length (v : float) (s : StratoRATS) : StratoRATS :=
  {| inst_substate := inst_substate s; time_valid := time_valid s;
     mcbParam := mcbParam s; ratsParam := ratsParam s;
     action_flags := action_flags s;
     flight_mode_substate := flight_mode_substate s;
     total_lora_count := total_lora_count s; lora_count := lora_count s;
     warmup_status := warmup_status s; warmup_cycles := warmup_cycles s;
     deploy_length := deploy_length s; retract_length := v;
     mcb_motion_ongoing := mcb_motion_ongoing s; mcb_motion := mcb_motion s |}.

Definition set_mcb_motion (v : MCBMotion_t) (s : StratoRATS) : StratoRATS :=
  {| inst_substate := inst_substate s; time_valid := time_valid s;
     mcbParam := mcbParam s; ratsParam := ratsParam s;
     action_flags := action_flags s;
     flight_mode_substate := flight_mode_substate s;
     total_lora_count := total_lora_count s; lora_count := lora_count s;
     warmup_status := warmup_status s; warmup_cycles := warmup_cycles s;
     deploy_length := deploy_length s; retract_length := retract_length s;
     mcb_motion_ongoing := mcb_motion_ongoing s; mcb_motion := v |}.

(** ** Messages and events *)

(** An Arduino [String] built by concatenation: literal text, the decimal
    print of an integer, the print of a float with a number of decimals
    ([String(f)] prints two), and [String(telecommand)]. *)
Inductive MsgPart : Type :=
| Txt (s : string)
| Num (n : Z)
| Flt (f : float) (decimals : nat)
| TCNum (tc : Telecommand_t).

Definition Msg : Type := list MsgPart.

Inductive Event : Type :=
| EvLog (level : LOG_LEVEL_t) (msg : Msg)          (* log_debug / log_nominal / log_error *)
| EvZephyrLogFine (msg : Msg)
| EvZephyrLogWarn (msg : Msg)
| EvAddAction (a : ScheduleAction_t) (secs : Z)    (* scheduler.AddAction *)
| EvTX_ASCII (m : MCBMessages_t)
| EvTX_Out_Acc (v : float)
| EvTX_In_Acc (v : float)
| EvTX_Torque_Limits (lo hi : float)
| EvTX_Curr_Limits (lo hi : float)
| EvWrite_deploy_velocity (v : float)              (* ratsConfigs.<x>.Write *)
| EvWrite_retract_velocity (v : float)
| EvWrite_data_proc_method (v : Z)
| EvWrite_real_time_mcb (v : bool)
| EvSendRATSEEPROM
| EvStatusTM (substate : Z) (motion : MCBMotion_t) (ongoing : bool)
             (warmup : WarmupStatus_t) (total_lora lora : Z)
| EvRatsReportTM.                                  (* ratsReportTM() *)

(** ** The monad: state of the object, events written so far *)

Definition M (A : Type) : Type := StratoRATS -> A * StratoRATS * list Event.

Definition ret {A} (a : A) : M A := fun s => (a, s, []).

Definition bind {A B} (m : M A) (k : A -> M B) : M B :=
  fun s =>
    let '(a, s1, e1) := m s in
    let '(b, s2, e2) := k a s1 in
    (b, s2, e1 ++ e2).

Notation "x <- m ;; k" := (bind m (fun x => k))
  (at level 61, m at next level, right associativity).
Notation "m ;; k" := (bind m (fun _ => k))
  (at level 61, right associativity).

Definition gets {A} (f : StratoRATS -> A) : M A := fun s => (f s, s, []).
Definition modify (f : StratoRATS -> StratoRATS) : M unit :=
  fun s => (tt, f s, []).
Definition emit (e : Event) : M unit := fun s => (tt, s, [e]).

Definition result {A} (r : A * StratoRATS * list Event) : A := fst (fst r).
Definition state_of {A} (r : A * StratoRATS * list Event) : StratoRATS :=
  snd (fst r).
Definition events {A} (r : A * StratoRATS * list Event) : list Event := snd r.

Definition log_debug (m : string) : M unit := emit (EvLog LOG_DEBUG [Txt m]).
Definition log_nominal (m : string) : M unit :=
  emit (EvLog LOG_NOMINAL [Txt m]).
Definition log_error (m : string) : M unit := emit (EvLog LOG_ERROR [Txt m]).
Definition AddAction (a : ScheduleAction_t) (secs : Z) : M unit :=
  emit (EvAddAction a secs).

(** ** What the three files leave open

    [MODE_ENTRY], [MODE_ERROR], [MODE_SHUTDOWN] and [MODE_EXIT] are the fixed
    sub-states of StratoCore.h; [STATUS_MSG_PERIOD_SECS] is defined in
    another header; [Flight_ManualMotion] and [RATS_Shutdown] are member
    functions defined in other translation units.  They may read and
    write the whole object and make calls of their own, so they are arbitrary
    computations here. *)
Class Externals : Type := {
  MODE_ENTRY : Z;
  MODE_ERROR : Z;
  MODE_SHUTDOWN : Z;
  MODE_EXIT : Z;
  STATUS_MSG_PERIOD_SECS : Z;
  Flight_ManualMotion : bool -> M bool;
  RATS_Shutdown : M unit
}.

(** ** Action flags *)

Definition upd (t : ScheduleAction_t -> ActionFlag_t) (a : ScheduleAction_t)
  (v : ActionFlag_t) : ScheduleAction_t -> ActionFlag_t :=
  fun b => if ScheduleAction_eq_dec b a then v else t b.

(** Modelled from the spec: [SetAction] is defined in another translation
    unit.  "Raising sets raised=true, stale_counter=FLAG_STALE." *)
Definition SetAction (a : ScheduleAction_t) : M unit :=
  modify (fun s =>
    set_action_flags
      (upd (action_flags s) a
           {| flag_value := true; stale_count := FLAG_STALE |}) s).

(** Modelled from the spec: [CheckAction] is defined in another translation
    unit.  "A consumer's test-and-clear returns raised and clears it." *)
Definition CheckAction (a : ScheduleAction_t) : M bool :=
  fun s =>
    if flag_value (action_flags s a)
    then (true,
          set_action_flags
            (upd (action_flags s) a
                 {| flag_value := false;
                    stale_count := stale_count (action_flags s a) |}) s,
          [])
    else (false, s, []).

(** Modelled from the spec: [ActionHandler] is defined in another
    translation unit.  The scheduler "fires deadline actions into" the flag table. *)
Definition ActionHandler (a : ScheduleAction_t) : M unit := SetAction a.

(** ** LoRa counters *)

Definition uint32 (z : Z) : Z := z mod 2 ^ 32.

(** Modelled from the spec: [lora_count_check] is defined in another
    translation unit.  "lora_count_check(reset) returns the warmup counter; reset=true
    zeroes it." *)
Definition lora_count_check (reset : bool) : M Z :=
  (if reset then modify (set_lora_count 0) else ret tt) ;;
  gets lora_count.

(** Modelled from the spec: [LoRaRX] is defined in another translation unit.
    "Poll the LoRa driver for a new message; if present, ... increment
    total_lora_count and warmup_lora_count"; at most one message per loop.
    [received] is the outcome of the poll.  The copy into [lora_msg] and the
    hand-over to the report aggregator touch nothing the state machine
    reads. *)
Definition LoRaRX (received : bool) : M unit :=
  if received
  then modify (fun s =>
         set_lora_count (uint32 (lora_count s + 1))
           (set_total_lora_count (uint32 (total_lora_count s + 1)) s))
  else ret tt.

(** ** Status message *)

(** Modelled from the spec: [statusMsgCheck] is defined in another
    translation unit.  "Scheduler-gated via the SEND_STATUS action, emits a short TM
    containing the current sub-state, warmup progress, motion state, LoRa
    counters.  The emitter re-schedules itself as a post-condition of its own
    run."  The sub-state it reports is [flight_mode_substate]. *)
Definition statusMsgCheck (period : Z) : M unit :=
  due <- CheckAction ACTION_SEND_STATUS ;;
  if due then
    (s <- gets (fun s => s) ;;
     emit (EvStatusTM (flight_mode_substate s) (mcb_motion s)
             (mcb_motion_ongoing s) (warmup_status s)
             (total_lora_count s) (lora_count s)) ;;
     AddAction ACTION_SEND_STATUS period)
  else ret tt.

Section Model.
Context {X : Externals}.

(** ** Flight.cpp: [enum FLStates_t] at file scope

    The two switches of Flight.cpp, and the assignments to [inst_substate]
    in them, are read with these enumerators. *)

Definition FL_ENTRY : Z := MODE_ENTRY.
Definition FL_GPS_WAIT : Z := MODE_ENTRY + 1.
Definition FL_LORA_WAIT1 : Z := MODE_ENTRY + 2.
Definition FL_CONFIG_ECU : Z := MODE_ENTRY + 3.
Definition FL_LORA_WAIT2 : Z := MODE_ENTRY + 4.
Definition FL_MEASURE : Z := MODE_ENTRY + 5.
Definition FL_SEND_TELEMETRY : Z := MODE_ENTRY + 6.
Definition FLM_IDLE : Z := MODE_ENTRY + 7.
Definition FLM_MANUAL_MOTION : Z := MODE_ENTRY + 8.
Definition FL_ERROR : Z := MODE_ERROR.
Definition FL_SHUTDOWN : Z := MODE_SHUTDOWN.
Definition FL_EXIT : Z := MODE_EXIT.

(** The case labels of the two switches of Flight.cpp; a switch needs them
    pairwise distinct. *)
Definition flight_labels : list Z :=
  [ FL_ENTRY; FL_GPS_WAIT; FL_LORA_WAIT1; FL_CONFIG_ECU; FL_LORA_WAIT2;
    FL_MEASURE; FL_SEND_TELEMETRY; FLM_IDLE; FLM_MANUAL_MOTION;
    FL_ERROR; FL_SHUTDOWN; FL_EXIT ].

(** ** StratoRats.h: [enum FLStates_t] inside [class StratoRATS]

    "Moved from Flight.cpp to here so that TCHandler() can use them to vet
    TCs."  TCHandler.cpp has no other declaration of [FL_MEASURE] than this
    one.  The enumerators carry the prefix [Hdr_] to keep them apart from
    those of Flight.cpp.

    Inside a member function this declaration hides a file-scope one of the
    same name, so wherever both files compile the handler and the state
    machine name one and the same [FL_MEASURE].  Against the header as it
    stands, [case FL_CONFIG_ECU] and [case FL_MEASURE] of [FlightMode] would
    be two equal labels; this is why Flight.cpp is read with the enumeration
    it declares itself. *)

Definition Hdr_FL_ENTRY : Z := MODE_ENTRY.
Definition Hdr_FL_GPS_WAIT : Z := MODE_ENTRY + 1.
Definition Hdr_FL_WARMUP : Z := MODE_ENTRY + 2.
Definition Hdr_FL_MEASURE : Z := MODE_ENTRY + 3.
Definition Hdr_FL_REEL : Z := MODE_ENTRY + 4.
Definition Hdr_FL_ERROR : Z := MODE_ERROR.
Definition Hdr_FL_SHUTDOWN : Z := MODE_SHUTDOWN.
Definition Hdr_FL_EXIT : Z := MODE_EXIT.

(** ** Flight.cpp: [StratoRATS::ManualFlight] *)

Definition ManualFlight : M unit :=
  sub <- gets inst_substate ;;
  if sub =? FLM_IDLE then
    log_debug "FL Manual Idle" ;;
    reel_in <- CheckAction ACTION_REEL_IN ;;
    if reel_in then
      (log_nominal "Reel in manual command" ;;
       modify (set_mcb_motion MOTION_REEL_IN) ;;
       _ <- Flight_ManualMotion true ;;
       modify (set_inst_substate FLM_MANUAL_MOTION) ;;
       log_nominal "Entering FLM_MANUAL_MOTION")
    else
      (reel_out <- CheckAction ACTION_REEL_OUT ;;
       if reel_out then
         (log_nominal "Reel out manual command" ;;
          modify (set_mcb_motion MOTION_REEL_OUT) ;;
          _ <- Flight_ManualMotion true ;;
          modify (set_inst_substate FLM_MANUAL_MOTION) ;;
          log_nominal "Entering FLM_MANUAL_MOTION")
       else ret tt)
  else if sub =? FLM_MANUAL_MOTION then
    done <- Flight_ManualMotion false ;;
    if done then
      (modify (set_inst_substate FLM_IDLE) ;;
       log_nominal "Entering FLM_IDLE")
    else ret tt
  else log_error "Unknown manual substate".

(** ** Flight.cpp: [StratoRATS::FlightMode] *)

Definition FlightMode : M unit :=
  statusMsgCheck STATUS_MSG_PERIOD_SECS ;;
  sub <- gets inst_substate ;;
  modify (set_flight_mode_substate sub) ;;
  if sub =? FL_ENTRY then
    log_nominal "Entering FL" ;;
    AddAction ACTION_SEND_STATUS 1 ;;
    AddAction ACTION_SIM_LORA_MSG 30 ;;
    AddAction ACTION_GPS_WAIT_MSG 5 ;;
    modify (set_inst_substate FL_GPS_WAIT) ;;
    log_nominal "Entering FL_GPS_WAIT"
  else if sub =? FL_GPS_WAIT then
    waiting <- CheckAction ACTION_GPS_WAIT_MSG ;;
    (if waiting then
       (log_nominal "FL_GPS_WAIT waiting for GPS Time" ;;
        AddAction ACTION_GPS_WAIT_MSG 5)
     else ret tt) ;;
    tv <- gets time_valid ;;
    if tv then
      (AddAction ACTION_LORA_WAIT_MSG 1 ;;
       _ <- lora_count_check true ;;
       modify (set_inst_substate FL_LORA_WAIT1) ;;
       log_nominal "Entering FL_LORA_WAIT1")
    else ret tt
  else if sub =? FL_LORA_WAIT1 then
    fired <- CheckAction ACTION_LORA_WAIT_MSG ;;
    if fired then
      (log_nominal "FL_LORA_WAIT waiting for LoRa message" ;;
       AddAction ACTION_LORA_WAIT_MSG 1 ;;
       n <- lora_count_check false ;;
       if n >=? LORA_MSG_COUNT then
         (log_nominal "FL_LORA_WAIT LoRa messages received" ;;
          modify (set_inst_substate FL_CONFIG_ECU) ;;
          log_nominal "Entering FL_CONFIG_ECU")
       else ret tt)
    else ret tt
  else if sub =? FL_CONFIG_ECU then
    modify (set_inst_substate FL_LORA_WAIT2) ;;
    _ <- lora_count_check true ;;
    log_nominal "Entering FL_LORA_WAIT2"
  else if sub =? FL_LORA_WAIT2 then
    fired <- CheckAction ACTION_LORA_WAIT_MSG ;;
    if fired then
      (log_nominal "FL_LORA_WAIT waiting for LoRa message" ;;
       AddAction ACTION_LORA_WAIT_MSG 1 ;;
       n <- lora_count_check false ;;
       if n >=? LORA_MSG_COUNT then
         (log_nominal "FL_LORA_WAIT LoRa messages received" ;;
          AddAction ACTION_START_TELEMETRY 0 ;;
          modify (set_inst_substate FL_MEASURE) ;;
          log_nominal "Entering FL_MEASURE")
       else ret tt)
    else ret tt
  else if sub =? FL_MEASURE then
    start <- CheckAction ACTION_START_TELEMETRY ;;
    if start then
      (modify (set_inst_substate FL_SEND_TELEMETRY) ;;
       log_nominal "Entering FL_SEND_TELEMETRY")
    else
      (reel_out <- CheckAction ACTION_REEL_OUT ;;
       (if reel_out then
          (log_nominal "Reel out manual command" ;;
           modify (set_mcb_motion MOTION_REEL_OUT) ;;
           _ <- Flight_ManualMotion true ;;
           modify (set_inst_substate FLM_MANUAL_MOTION) ;;
           log_nominal "Entering FLM_MANUAL_MOTION")
        else
          (reel_in <- CheckAction ACTION_REEL_IN ;;
           if reel_in then
             (log_nominal "Reel in manual command" ;;
              modify (set_mcb_motion MOTION_REEL_IN) ;;
              _ <- Flight_ManualMotion true ;;
              modify (set_inst_substate FLM_MANUAL_MOTION) ;;
              log_nominal "Entering FLM_MANUAL_MOTION")
           else ret tt)) ;;
       log_debug "FL Measure")
  else if sub =? FL_SEND_TELEMETRY then
    modify (set_inst_substate FL_MEASURE) ;;
    AddAction ACTION_START_TELEMETRY 60 ;;
    log_nominal "Entering FL_MEASURE"
  else if sub =? FL_ERROR then
    RATS_Shutdown ;;
    log_debug "In Error Sub State"
  else if sub =? FL_SHUTDOWN then
    RATS_Shutdown ;;
    log_nominal "Shutdown warning received in FL"
  else if sub =? FL_EXIT then
    RATS_Shutdown ;;
    log_nominal "Exiting FL"
  else
    ManualFlight.

(** ** TCHandler.cpp: [StratoRATS::TCHandler]

    [tx_ok] is what the one [mcbComm] transmit call whose result the handler
    tests returns ([TX_Out_Acc], [TX_In_Acc], [TX_Torque_Limits],
    [TX_Curr_Limits]); the result of [TX_ASCII] is not looked at. *)

Definition TX_ASCII (m : MCBMessages_t) : M unit := emit (EvTX_ASCII m).

(** The first switch: it leaves the locals [msg] and [summary_level]. *)
Definition TC_switch (tx_ok : bool) (telecommand : Telecommand_t)
  : M (Msg * LOG_LEVEL_t) :=
  let msg := [Txt "Unhandled TC "; TCNum telecommand; Txt " received"] in
  let summary_level := LOG_NOMINAL in
  match telecommand with
  | DEPLOYx =>
      let msg := [Txt "TC Deploy Length"] in
      sub <- gets inst_substate ;;
      if sub =? Hdr_FL_MEASURE then
        (p <- gets mcbParam ;;
         modify (set_deploy_length (deployLen p)) ;;
         d <- gets deploy_length ;;
         let msg := msg ++ [Txt ": "; Flt d 1; Txt " revs"] in
         SetAction ACTION_REEL_OUT ;;
         ret (msg, summary_level))
      else ret ([Txt "Cannot deploy, not in FL_MEASURE"], LOG_ERROR)
  | DEPLOYv =>
      p <- gets mcbParam ;;
      emit (EvWrite_deploy_velocity (deployVel p)) ;;
      ret ([Txt "TC Deploy Velocity: "; Flt (deployVel p) 2], summary_level)
  | DEPLOYa =>
      p <- gets mcbParam ;;
      let msg := [Txt "TC Deploy Acceleration: "; Flt (deployAcc p) 2] in
      emit (EvTX_Out_Acc (deployAcc p)) ;;
      if negb tx_ok
      then ret ([Txt "Error sending deploy acc to MCB"], summary_level)
      else ret (msg, summary_level)
  | RETRACTx =>
      let msg := [Txt "TC Retract Length"] in
      sub <- gets inst_substate ;;
      if sub =? Hdr_FL_MEASURE then
        (p <- gets mcbParam ;;
         modify (set_retract_length (retractLen p)) ;;
         SetAction ACTION_REEL_IN ;;
         r <- gets retract_length ;;
         ret (msg ++ [Txt ": "; Flt r 1; Txt " revs"], summary_level))
      else ret ([Txt "Cannot retract, not in FL_MEASURE"], LOG_ERROR)
  | RETRACTv =>
      p <- gets mcbParam ;;
      emit (EvWrite_retract_velocity (retractVel p)) ;;
      ret ([Txt "TC Retract Velocity: "; Flt (retractVel p) 2], summary_level)
  | RETRACTa =>
      p <- gets mcbParam ;;
      let msg := [Txt "TC Retract Acceleration: "; Flt (retractAcc p) 2] in
      emit (EvTX_In_Acc (retractAcc p)) ;;
      if negb tx_ok
      then ret ([Txt "Error sending retract acc to MCB"], summary_level)
      else ret (msg, summary_level)
  | FULLRETRACT =>
      ret ([Txt "TC Full Retract"], summary_level)
  | CANCELMOTION =>
      TX_ASCII MCB_CANCEL_MOTION ;;
      SetAction ACTION_MOTION_STOP ;;
      ret ([Txt "TC Cancel Motion"], summary_level)
  | ZEROREEL =>
      ongoing <- gets mcb_motion_ongoing ;;
      if ongoing
      then ret ([Txt "Can't zero reel, motion ongoing"], LOG_ERROR)
      else (TX_ASCII MCB_ZERO_REEL ;;
            ret ([Txt "TC Zero Reel"], summary_level))
  | TORQUELIMITS =>
      p <- gets mcbParam ;;
      emit (EvTX_Torque_Limits (fst (torqueLimits p)) (snd (torqueLimits p))) ;;
      if negb tx_ok
      then ret ([Txt "Error sending torque limits to MCB"], LOG_ERROR)
      else ret ([Txt "TC Torque Limits"], summary_level)
  | CURRLIMITS =>
      p <- gets mcbParam ;;
      emit (EvTX_Curr_Limits (fst (currLimits p)) (snd (currLimits p))) ;;
      if negb tx_ok
      then ret ([Txt "Error sending curr limits to MCB"], LOG_ERROR)
      else ret ([Txt "TC Current Limits"], summary_level)
  | IGNORELIMITS =>
      TX_ASCII MCB_IGNORE_LIMITS ;;
      ret ([Txt "TC Ignore Limits"], summary_level)
  | USELIMITS =>
      TX_ASCII MCB_USE_LIMITS ;;
      ret ([Txt "TC Use Limits"], summary_level)
  | GETMCBEEPROM =>
      ongoing <- gets mcb_motion_ongoing ;;
      if ongoing
      then ret ([Txt "Motion ongoing, request MCB EEPROM later"], LOG_ERROR)
      else (TX_ASCII MCB_GET_EEPROM ;;
            ret ([Txt "TC get MCB EEPROM"], summary_level))
  | GETMCBVOLTS =>
      TX_ASCII MCB_GET_VOLTAGES ;;
      ret ([Txt "TC get MCB voltages"], summary_level)
  | RATSDATAPROCTYPE =>
      p <- gets ratsParam ;;
      emit (EvWrite_data_proc_method (data_proc_method p)) ;;
      ret ([Txt "TC set processing mode"; Num (data_proc_method p)],
           summary_level)
  | RATSREALTIMEMCBON =>
      ongoing <- gets mcb_motion_ongoing ;;
      if ongoing
      then ret ([Txt "Cannot start real-time MCB mode, motion ongoing"],
                LOG_ERROR)
      else (emit (EvWrite_real_time_mcb true) ;;
            ret ([Txt "Enabled real-time MCB mode"], summary_level))
  | RATSREALTIMEMCBOFF =>
      ongoing <- gets mcb_motion_ongoing ;;
      if ongoing
      then ret ([Txt "Cannot start real-time MCB mode, motion ongoing"],
                LOG_ERROR)
      else (emit (EvWrite_real_time_mcb false) ;;
            ret ([Txt "Disabled real-time MCB mode"], summary_level))
  | RATSGETEEPROM =>
      ongoing <- gets mcb_motion_ongoing ;;
      if ongoing
      then ret ([Txt "Motion ongoing, request RATS EEPROM later"], LOG_ERROR)
      else (emit EvSendRATSEEPROM ;;
            ret ([Txt "TC get RATS EEPROM"], summary_level))
  | OTHER_TC _ =>
      ret ([Txt "Unknown TC "; TCNum telecommand; Txt " received"], LOG_ERROR)
  end.

(** The second switch: "Send TC summary to the StratoCore log and as a TM". *)
Definition TC_summary (msg : Msg) (summary_level : LOG_LEVEL_t) : M unit :=
  match summary_level with
  | LOG_DEBUG => emit (EvLog LOG_DEBUG msg)
  | LOG_NOMINAL => emit (EvLog LOG_NOMINAL msg) ;; emit (EvZephyrLogFine msg)
  | LOG_ERROR => emit (EvLog LOG_ERROR msg) ;; emit (EvZephyrLogWarn msg)
  | LOG_NONE => emit (EvLog LOG_ERROR msg) ;; emit (EvZephyrLogWarn msg)
  end.

Definition TCHandler (tx_ok : bool) (telecommand : Telecommand_t) : M bool :=
  r <- TC_switch tx_ok telecommand ;;
  TC_summary (fst r) (snd r) ;;
  ret true.

End Model.

(** ** The instrument loop *)

(** What one pass of the main loop brings in from outside: whether the LoRa
    poll found a message, and which deadlines the scheduler found expired. *)
Record LoopInput : Type := {
  lora_rx : bool;
  fired : list ScheduleAction_t
}.

Section Loop.
Context {X : Externals}.

Fixpoint fire (l : list ScheduleAction_t) : M unit :=
  match l with
  | [] => ret tt
  | a :: l' => ActionHandler a ;; fire l'
  end.

(** Modelled from the spec: the instrument loop is defined in another
    translation unit.  "Within one tick, the canonical order is: (1) LoRa
    poll, ... (4) scheduler tick (fires deadline actions), (5) state-machine
    tick"; the order must "keep (1)<(5) and (4)<(5)". *)
Definition loop (i : LoopInput) : M unit :=
  LoRaRX (lora_rx i) ;;
  fire (fired i) ;;
  FlightMode.

(** The object after [n] passes, the first of them fed with [ins k]. *)
Fixpoint run_from (ins : nat -> LoopInput) (k n : nat) (s : StratoRATS)
  : StratoRATS :=
  match n with
  | O => s
  | S n' => run_from ins (S k) n' (state_of (loop (ins k) s))
  end.

(** The events of pass number [k] of a run that starts in [s0]. *)
Definition loop_events (ins : nat -> LoopInput) (k : nat) (s0 : StratoRATS)
  : list Event :=
  events (loop (ins k) (run_from ins 0 k s0)).

(** The object as [FlightMode] finds it in a pass: after the LoRa poll and
    the scheduler. *)
Definition delivered (i : LoopInput) (s : StratoRATS) : StratoRATS :=
  state_of (fire (fired i) (state_of (LoRaRX (lora_rx i) s))).

(** The object as the switch of [FlightMode] finds it: after the status
    check and the copy of the sub-state. *)
Definition before_switch (s : StratoRATS) : StratoRATS :=
  set_flight_mode_substate (inst_substate s)
    (state_of (statusMsgCheck STATUS_MSG_PERIOD_SECS s)).

(** The sub-state after [j] passes of a warmup that spends [a] passes in
    [FL_LORA_WAIT1] and [b] passes in [FL_LORA_WAIT2]. *)
Definition phase (a b j : nat) : Z :=
  if (j =? 0)%nat then FL_ENTRY
  else if (j =? 1)%nat then FL_GPS_WAIT
  else if (j <=? 1 + a)%nat then FL_LORA_WAIT1
  else if (j =? 2 + a)%nat then FL_CONFIG_ECU
  else if (j <=? 2 + a + b)%nat then FL_LORA_WAIT2
  else FL_MEASURE.

End Loop.

(** LoRa messages found by the polls of passes [k], ..., [k + n - 1]. *)
Fixpoint msgs_in (ins : nat -> LoopInput) (k n : nat) : Z :=
  match n with
  | O => 0
  | S n' => (if lora_rx (ins k) then 1 else 0) + msgs_in ins (S k) n'
  end.

(** ** Reading event lists *)

Definition is_log (e : Event) : bool :=
  match e with EvLog _ _ => true | _ => false end.

Definition is_summary_tm (e : Event) : bool :=
  match e with
  | EvZephyrLogFine _ | EvZephyrLogWarn _ => true
  | _ => false
  end.


(** ** The states the state machine can be found in *)

Section Reach.
Context {X : Externals}.

(** The two sub-states of [ManualFlight]. *)
Definition manual (s : StratoRATS) : Prop :=
  inst_substate s = FLM_IDLE \/ inst_substate s = FLM_MANUAL_MOTION.

(** Modelled from the spec: what runs between two ticks (the telecommand
    poll, the scheduler, the serial polls, the decay of stale flags, the host
    framework) is code of other translation units.  The spec says of it that
    the flight sub-state is "Mutated exclusively by the flight state machine
    tick" and that "REEL_OUT/REEL_IN are raised only by the telecommand
    dispatcher and only when currently in MEASURE (gating enforced there)".
    [outside_step s s'] asks for less than that: such code never puts the
    machine into a manual sub-state, and raises no reel flag while the
    machine is in one.  Everything else it is free to change. *)
Definition outside_step (s s' : StratoRATS) : Prop :=
  manual s' ->
  inst_substate s' = inst_substate s /\
  (flag_value (action_flags s' ACTION_REEL_OUT) = true ->
   flag_value (action_flags s ACTION_REEL_OUT) = true) /\
  (flag_value (action_flags s' ACTION_REEL_IN) = true ->
   flag_value (action_flags s ACTION_REEL_IN) = true).



End Reach.

(** ** A concrete instrument for closed examples *)

(** The fixed sub-states take the values 0, 253, 254, 255; the motion
    sub-machine reports completion when [ACTION_MOTION_STOP] is raised. *)
Definition sample : Externals := {|
  MODE_ENTRY := 0;
  MODE_ERROR := 253;
  MODE_SHUTDOWN := 254;
  MODE_EXIT := 255;
  STATUS_MSG_PERIOD_SECS := 60;
  Flight_ManualMotion := fun restart =>
    if restart then ret false else CheckAction ACTION_MOTION_STOP;
  RATS_Shutdown := ret tt
|}.

Definition no_flags : ScheduleAction_t -> ActionFlag_t :=
  fun _ => {| flag_value := false; stale_count := 0 |}.

Definition raised : ActionFlag_t :=
  {| flag_value := true; stale_count := FLAG_STALE |}.

(** The member initialisers of StratoRats.h, at the given sub-state. *)
Definition object_at (substate : Z) : StratoRATS := {|
  inst_substate := substate;
  time_valid := false;
  mcbParam := {| deployLen := 0; deployVel := 0; deployAcc := 0;
                 retractLen := 0; retractVel := 0; retractAcc := 0;
                 torqueLimits := (0, 0); currLimits := (0, 0) |};
  ratsParam := {| data_proc_method := 0 |};
  action_flags := no_flags;
  flight_mode_substate := 0;
  total_lora_count := 0;
  lora_count := 0;
  warmup_status := WARMUP_INPROCESS;
  warmup_cycles := 0;
  deploy_length := 0;
  retract_length := 0;
  mcb_motion_ongoing := false;
  mcb_motion := NO_MOTION
|}.

Definition with_flag (a : ScheduleAction_t) (s : StratoRATS) : StratoRATS :=
  set_action_flags (upd (action_flags s) a raised) s.

Definition with_time_valid (s : StratoRATS) : StratoRATS :=
  {| inst_substate := inst_substate s; time_valid := true;
     mcbParam := mcbParam s; ratsParam := ratsParam s;
     action_flags := action_flags s;
     flight_mode_substate := flight_mode_substate s;
     total_lora_count := total_lora_count s; lora_count := lora_count s;
     warmup_status := warmup_status s; warmup_cycles := warmup_cycles s;
     deploy_length := deploy_length s; retract_length := retract_length s;
     mcb_motion_ongoing := mcb_motion_ongoing s; mcb_motion := mcb_motion s |}.

(** One LoRa message and one [ACTION_LORA_WAIT_MSG] deadline in every pass. *)
Definition steady : nat -> LoopInput :=
  fun _ => {| lora_rx := true; fired := [ACTION_LORA_WAIT_MSG] |}.

(** Sample objects: in [FLM_IDLE] with both reel flags raised; in
    [FL_MEASURE] with [ACTION_START_TELEMETRY] and [ACTION_REEL_IN] raised;
    in [FLM_MANUAL_MOTION] with [ACTION_MOTION_STOP] raised; in [FL_ENTRY]
    with the time valid. *)
Definition idle_both_reels : StratoRATS :=
  with_flag ACTION_REEL_OUT (with_flag ACTION_REEL_IN (object_at 7)).
Definition measure_start_due : StratoRATS :=
  with_flag ACTION_REEL_IN (with_flag ACTION_START_TELEMETRY (object_at 5)).
Definition motion_stopping : StratoRATS :=
  with_flag ACTION_MOTION_STOP (object_at 8).
Definition entry_time_valid : StratoRATS := with_time_valid (object_at 0).

(** The sample instrument after the nine passes of a steady warmup, in
    [FL_MEASURE]; then with both length commands accepted; then with the
    telemetry cycle due as well. *)
Definition measure_after_warmup : StratoRATS :=
  @run_from sample steady 0 9 entry_time_valid.
Definition tie_after_warmup : StratoRATS :=
  with_flag ACTION_REEL_OUT (with_flag ACTION_REEL_IN measure_after_warmup).
Definition tie_with_start_due : StratoRATS :=
  with_flag ACTION_START_TELEMETRY tie_after_warmup.

(** ** Further vocabulary for the properties *)

(** The calls a telecommand can make besides its log line and summary TM:
    a transmission to the MCB, a write to the EEPROM configuration, the
    EEPROM dump. *)
Definition is_mcb_tx (e : Event) : bool :=
  match e with
  | EvTX_ASCII _ | EvTX_Out_Acc _ | EvTX_In_Acc _
  | EvTX_Torque_Limits _ _ | EvTX_Curr_Limits _ _ => true
  | _ => false
  end.

Definition is_config_write (e : Event) : bool :=
  match e with
  | EvWrite_deploy_velocity _ | EvWrite_retract_velocity _
  | EvWrite_data_proc_method _ | EvWrite_real_time_mcb _ => true
  | _ => false
  end.

Definition is_tc_action (e : Event) : bool :=
  is_mcb_tx e || is_config_write e ||
  match e with EvSendRATSEEPROM => true | _ => false end.

(** The flag table after a successful [CheckAction a]. *)
Definition consumed (a : ScheduleAction_t) (s : StratoRATS) : StratoRATS :=
  set_action_flags
    (upd (action_flags s) a
         {| flag_value := false;
            stale_count := stale_count (action_flags s a) |}) s.

(** A helper of another translation unit never schedules [a]. *)
Definition never_schedules {A} (a : ScheduleAction_t) (m : M A) : Prop :=
  forall s d, ~ In (EvAddAction a d) (events (m s)).

(** No LoRa message in any pass; [ACTION_LORA_WAIT_MSG] fires in every
    pass. *)
Definition silent : nat -> LoopInput :=
  fun _ => {| lora_rx := false; fired := [ACTION_LORA_WAIT_MSG] |}.

(** Sample objects for the further properties. *)
Definition measure_reel_in : StratoRATS :=
  with_flag ACTION_REEL_IN (object_at 5).
Definition gps_flagged : StratoRATS :=
  with_flag ACTION_GPS_WAIT_MSG (object_at 1).
Definition wait1_flagged : StratoRATS :=
  with_flag ACTION_LORA_WAIT_MSG (object_at 2).
Definition wait2_flagged : StratoRATS :=
  with_flag ACTION_LORA_WAIT_MSG (object_at 4).

(** * Properties *)

(** ** The report-size macro and the tunable constants *)

Lemma intmax_id (z : Z) : - 2 ^ 63 <= z < 2 ^ 63 -> intmax z = z.
Proof.
  intros H. unfold intmax.
  rewrite Z.mod_small by lia. lia.
Qed.

(** Where the value of the macro fits [intmax_t], no operation of the guard
    wraps and the comparison sees the exact value. *)
Lemma tm_buffer_guard_exact (rs : Z) :
  0 <= rs -> RATS_REPORT_MAX_BYTES rs < 2 ^ 63 ->
  tm_buffer_guard rs = negb (RATS_REPORT_MAX_BYTES rs >? 8192).
Proof.
  unfold tm_buffer_guard, RATS_REPORT_MAX_BYTES, RATS_HEADER_SIZE_BYTES,
    NUM_ECU_REPORTS.
  intros H0 H1.
  rewrite (intmax_id (180 + 1)) by lia.
  rewrite (intmax_id rs) by lia.
  rewrite (intmax_id ((180 + 1) * rs)) by lia.
  rewrite intmax_id by lia.
  reflexivity.
Qed.

(** C9.  [RATS_REPORT_MAX_BYTES] is 7 + (NUM_ECU_REPORTS + 1) * record size.
    For every record size whose report size the preprocessor can represent,
    the [#if ... #error] guard of the header lets the file through exactly
    when the record size is at most 45 bytes, which is exactly when the
    report size is at most 8192 bytes; a header that compiles therefore has
    a report size of at most 8152 bytes.  The tunable constants have the
    listed values. *)
Theorem report_size_guard_keeps_cap (ECU_REPORT_SIZE_BYTES : Z)
  (Hsize : 0 <= ECU_REPORT_SIZE_BYTES)
  (Hrepr : RATS_REPORT_MAX_BYTES ECU_REPORT_SIZE_BYTES < 2 ^ 63) :
  RATS_REPORT_MAX_BYTES ECU_REPORT_SIZE_BYTES
    = 7 + (NUM_ECU_REPORTS + 1) * ECU_REPORT_SIZE_BYTES /\
  (tm_buffer_guard ECU_REPORT_SIZE_BYTES = true
     <-> ECU_REPORT_SIZE_BYTES <= 45) /\
  (tm_buffer_guard ECU_REPORT_SIZE_BYTES = true
     <-> RATS_REPORT_MAX_BYTES ECU_REPORT_SIZE_BYTES <= 8192) /\
  (tm_buffer_guard ECU_REPORT_SIZE_BYTES = true ->
     RATS_REPORT_MAX_BYTES ECU_REPORT_SIZE_BYTES <= 8152) /\
  RATS_REPORT_PERIOD_SECS = 360 /\
  NUM_ECU_REPORTS = 180 /\
  LORA_MSG_COUNT = 3 /\
  LORA_WARMUP_MSG_TIMEOUT = 15 /\
  FLAG_STALE = 3 /\
  MCB_RESEND_TIMEOUT = 10 /\
  ZEPHYR_RESEND_TIMEOUT = 60.
Proof.
  rewrite (tm_buffer_guard_exact _ Hsize Hrepr).
  rewrite negb_true_iff, Z.gtb_ltb, Z.ltb_ge.
  unfold RATS_REPORT_MAX_BYTES, RATS_HEADER_SIZE_BYTES, NUM_ECU_REPORTS in *.
  split; [reflexivity |].
  split; [lia |].
  split; [lia |].
  split; [lia |].
  repeat split.
Qed.

Lemma report_size_guard_keeps_cap_witness :
  0 <= 45 /\
  RATS_REPORT_MAX_BYTES 45 < 2 ^ 63 /\
  RATS_REPORT_MAX_BYTES 45 = 7 + (NUM_ECU_REPORTS + 1) * 45 /\
  (tm_buffer_guard 45 = true <-> 45 <= 45) /\
  (tm_buffer_guard 45 = true <-> RATS_REPORT_MAX_BYTES 45 <= 8192) /\
  (tm_buffer_guard 45 = true -> RATS_REPORT_MAX_BYTES 45 <= 8152) /\
  RATS_REPORT_PERIOD_SECS = 360 /\
  NUM_ECU_REPORTS = 180 /\
  LORA_MSG_COUNT = 3 /\
  LORA_WARMUP_MSG_TIMEOUT = 15 /\
  FLAG_STALE = 3 /\
  MCB_RESEND_TIMEOUT = 10 /\
  ZEPHYR_RESEND_TIMEOUT = 60.
Proof.
  split; [lia |].
  split; [reflexivity |].
  apply (report_size_guard_keeps_cap 45); [lia | reflexivity].
Defined.

(** The guard is what keeps the bound: one byte more per record and the
    macro is over the cap, and the header does not compile. *)
Example report_max_bytes_46 :
  tm_buffer_guard 46 = false /\ RATS_REPORT_MAX_BYTES 46 = 8333.
Proof. split; reflexivity. Qed.

(** Past the representable range the guard says nothing.  The largest
    record size whose report size fits [intmax_t] is refused; at the next
    one the product wraps, the comparison sees a negative number, and the
    guard lets through a report size of 2^63 + 166. *)
Example guard_wraps_past_intmax :
  RATS_REPORT_MAX_BYTES 50957856557208706 < 2 ^ 63 /\
  tm_buffer_guard 50957856557208706 = false /\
  RATS_REPORT_MAX_BYTES 50957856557208707 = 2 ^ 63 + 166 /\
  tm_buffer_guard 50957856557208707 = true.
Proof. repeat split. Qed.

(** ** The telecommand handler *)

Section TCHandlerFacts.
Context {X : Externals}.

Ltac tc_run :=
  unfold TCHandler, TC_switch, TC_summary, TX_ASCII, SetAction, bind, ret,
    gets, modify, emit, result, events, state_of; simpl.

Ltac tc_cases s tx :=
  repeat match goal with
  | |- context [inst_substate s =? ?v] =>
      destruct (inst_substate s =? v)
  | |- context [mcb_motion_ongoing s] => destruct (mcb_motion_ongoing s)
  | |- context [negb tx] => destruct tx
  end; simpl.

(** The level the first switch leaves in [summary_level] is never
    [LOG_DEBUG] (nor a level outside the three named ones). *)
Lemma TC_switch_level (tx_ok : bool) (tc : Telecommand_t) (s : StratoRATS) :
  snd (result (TC_switch tx_ok tc s)) = LOG_NOMINAL \/
  snd (result (TC_switch tx_ok tc s)) = LOG_ERROR.
Proof.
  destruct tc; tc_run; tc_cases s tx_ok; auto.
Qed.

(** C6.  The handler returns [true] for every telecommand, in every state
    and whatever the MCB link answers; for an identifier it has no case for,
    it logs at error level, sends the same text as a warn-level TM, and still
    returns [true]. *)
Theorem TCHandler_always_acks :
  (forall (tx_ok : bool) (tc : Telecommand_t) (s : StratoRATS),
      result (TCHandler tx_ok tc s) = true) /\
  (forall (tx_ok : bool) (code : Z) (s : StratoRATS),
      let msg :=
        [Txt "Unknown TC "; TCNum (OTHER_TC code); Txt " received"] in
      events (TCHandler tx_ok (OTHER_TC code) s)
        = [EvLog LOG_ERROR msg; EvZephyrLogWarn msg] /\
      result (TCHandler tx_ok (OTHER_TC code) s) = true /\
      state_of (TCHandler tx_ok (OTHER_TC code) s) = s).
Proof.
  split.
  - intros tx_ok tc s. destruct tc; tc_run; tc_cases s tx_ok; reflexivity.
  - intros tx_ok code s. tc_run. auto.
Qed.

(** C7.  Every run of the handler writes exactly one log line and exactly
    one summary TM (fine or warn); the branch of the second switch that only
    logs ([LOG_DEBUG]) is never the one taken. *)
Theorem TCHandler_one_log_one_summary
  (tx_ok : bool) (tc : Telecommand_t) (s : StratoRATS) :
  List.length (filter is_log (events (TCHandler tx_ok tc s))) = 1%nat /\
  (exists msg,
      filter is_summary_tm (events (TCHandler tx_ok tc s))
        = [EvZephyrLogFine msg] \/
      filter is_summary_tm (events (TCHandler tx_ok tc s))
        = [EvZephyrLogWarn msg]) /\
  snd (result (TC_switch tx_ok tc s)) <> LOG_DEBUG.
Proof.
  split; [| split].
  - destruct tc; tc_run; tc_cases s tx_ok; reflexivity.
  - destruct tc; tc_run; tc_cases s tx_ok; eexists;
      solve [left; reflexivity | right; reflexivity].
  - destruct (TC_switch_level tx_ok tc s) as [H | H]; rewrite H; discriminate.
Qed.

(** C8.  [DEPLOYa] and [RETRACTa] send the parameter to the MCB in every
    sub-state; when the transmission fails the text becomes
    "Error sending ... acc to MCB" but [summary_level] stays [LOG_NOMINAL]:
    the log line is nominal and the summary TM is fine-level, not warn-level.
    [TORQUELIMITS], in the same situation, does report at warn level. *)
Theorem acc_tx_failure_reported_fine (s : StratoRATS) :
  events (TCHandler false DEPLOYa s)
    = [EvTX_Out_Acc (deployAcc (mcbParam s));
       EvLog LOG_NOMINAL [Txt "Error sending deploy acc to MCB"];
       EvZephyrLogFine [Txt "Error sending deploy acc to MCB"]] /\
  events (TCHandler false RETRACTa s)
    = [EvTX_In_Acc (retractAcc (mcbParam s));
       EvLog LOG_NOMINAL [Txt "Error sending retract acc to MCB"];
       EvZephyrLogFine [Txt "Error sending retract acc to MCB"]] /\
  events (TCHandler false TORQUELIMITS s)
    = [EvTX_Torque_Limits (fst (torqueLimits (mcbParam s)))
         (snd (torqueLimits (mcbParam s)));
       EvLog LOG_ERROR [Txt "Error sending torque limits to MCB"];
       EvZephyrLogWarn [Txt "Error sending torque limits to MCB"]].
Proof.
  repeat split.
Qed.


End TCHandlerFacts.

(** ** One tick of the flight state machine *)

Ltac flight_consts :=
  unfold FL_ENTRY, FL_GPS_WAIT, FL_LORA_WAIT1, FL_CONFIG_ECU, FL_LORA_WAIT2,
    FL_MEASURE, FL_SEND_TELEMETRY, FLM_IDLE, FLM_MANUAL_MOTION, FL_ERROR,
    FL_SHUTDOWN, FL_EXIT in *.

Ltac eqb_lia :=
  repeat match goal with
  | |- context [?a =? ?b] =>
      first [ replace (a =? b) with true by (symmetry; apply Z.eqb_eq; lia)
            | replace (a =? b) with false by (symmetry; apply Z.eqb_neq; lia) ]
  end.

Ltac monad_unfold :=
  unfold bind, ret, gets, modify, emit, log_debug, log_nominal, log_error,
    AddAction, lora_count_check, result, events, state_of in *.

(** Enter the switch of [FlightMode] at the sub-state given by [H], in both
    cases of the status check. *)
Ltac enter_switch s H :=
  unfold before_switch, FlightMode, ManualFlight, statusMsgCheck,
    CheckAction in *;
  monad_unfold;
  destruct (flag_value (action_flags s ACTION_SEND_STATUS));
  simpl in *; flight_consts;
  repeat (rewrite H; eqb_lia; unfold upd; simpl).

Section FlightFacts.
Context {X : Externals}.

Lemma before_switch_frame (s : StratoRATS) :
  inst_substate (before_switch s) = inst_substate s /\
  time_valid (before_switch s) = time_valid s /\
  lora_count (before_switch s) = lora_count s /\
  mcb_motion (before_switch s) = mcb_motion s /\
  flight_mode_substate (before_switch s) = inst_substate s /\
  (forall a, a <> ACTION_SEND_STATUS ->
     action_flags (before_switch s) a = action_flags s a).
Proof.
  unfold before_switch, statusMsgCheck, CheckAction. monad_unfold.
  destruct (flag_value (action_flags s ACTION_SEND_STATUS)); simpl;
    repeat split; intros a Ha; unfold upd;
    destruct (ScheduleAction_eq_dec a ACTION_SEND_STATUS); congruence.
Qed.

Lemma status_never_reports (p : Z) (s : StratoRATS) :
  ~ In EvRatsReportTM (events (statusMsgCheck p s)).
Proof.
  unfold statusMsgCheck, CheckAction. monad_unfold.
  destruct (flag_value (action_flags s ACTION_SEND_STATUS)); simpl;
    intuition discriminate.
Qed.

(** C3, as the code has it.  A tick in [FL_SEND_TELEMETRY] schedules
    [ACTION_START_TELEMETRY] 60 s ahead, logs, and sets the sub-state to
    [FL_MEASURE]; apart from the status check that precedes every switch it
    does nothing else, and no RATS report leaves in that tick. *)
Theorem send_telemetry_tick (s : StratoRATS)
  (Hsub : inst_substate s = FL_SEND_TELEMETRY) :
  state_of (FlightMode s) = set_inst_substate FL_MEASURE (before_switch s) /\
  inst_substate (state_of (FlightMode s)) = FL_MEASURE /\
  events (FlightMode s)
    = events (statusMsgCheck STATUS_MSG_PERIOD_SECS s)
      ++ [EvAddAction ACTION_START_TELEMETRY 60;
          EvLog LOG_NOMINAL [Txt "Entering FL_MEASURE"]] /\
  ~ In EvRatsReportTM (events (FlightMode s)).
Proof.
  assert (E : events (FlightMode s)
    = events (statusMsgCheck STATUS_MSG_PERIOD_SECS s)
      ++ [EvAddAction ACTION_START_TELEMETRY 60;
          EvLog LOG_NOMINAL [Txt "Entering FL_MEASURE"]]).
  { enter_switch s Hsub; reflexivity. }
  split; [| split; [| split]].
  - enter_switch s Hsub; reflexivity.
  - enter_switch s Hsub; reflexivity.
  - exact E.
  - rewrite E. intros Hin. apply in_app_or in Hin. destruct Hin as [Hin | Hin].
    + exact (status_never_reports _ _ Hin).
    + simpl in Hin. intuition discriminate.
Qed.

(** C10.  A tick in [FL_MEASURE] with [ACTION_START_TELEMETRY] raised clears
    that flag, sets the sub-state to [FL_SEND_TELEMETRY] and logs; the reel
    flags are left as they were, [mcb_motion] keeps its value, and the motion
    sub-machine is not called.  Beyond what precedes every switch (the status
    check on [ACTION_SEND_STATUS] and the copy into [flight_mode_substate])
    no flag and no other member changes.  A tick in [FL_ENTRY] schedules
    [ACTION_SEND_STATUS] at 1 s, [ACTION_SIM_LORA_MSG] at 30 s and
    [ACTION_GPS_WAIT_MSG] at 5 s, in that order, and leaves the sub-state at
    [FL_GPS_WAIT]. *)
Theorem start_telemetry_frame_and_entry (s e : StratoRATS)
  (Hsub : inst_substate s = FL_MEASURE)
  (Hstart : flag_value (action_flags s ACTION_START_TELEMETRY) = true)
  (Hentry : inst_substate e = FL_ENTRY) :
  (state_of (FlightMode s)
     = set_inst_substate FL_SEND_TELEMETRY
         (set_action_flags
            (upd (action_flags (before_switch s)) ACTION_START_TELEMETRY
               {| flag_value := false;
                  stale_count :=
                    stale_count (action_flags s ACTION_START_TELEMETRY) |})
            (before_switch s)) /\
   inst_substate (state_of (FlightMode s)) = FL_SEND_TELEMETRY /\
   action_flags (state_of (FlightMode s)) ACTION_REEL_OUT
     = action_flags s ACTION_REEL_OUT /\
   action_flags (state_of (FlightMode s)) ACTION_REEL_IN
     = action_flags s ACTION_REEL_IN /\
   mcb_motion (state_of (FlightMode s)) = mcb_motion s /\
   (forall a, a <> ACTION_START_TELEMETRY -> a <> ACTION_SEND_STATUS ->
      action_flags (state_of (FlightMode s)) a = action_flags s a) /\
   (time_valid (state_of (FlightMode s)),
    mcbParam (state_of (FlightMode s)),
    ratsParam (state_of (FlightMode s)),
    total_lora_count (state_of (FlightMode s)),
    lora_count (state_of (FlightMode s)),
    deploy_length (state_of (FlightMode s)),
    retract_length (state_of (FlightMode s)),
    mcb_motion_ongoing (state_of (FlightMode s)))
     = (time_valid s, mcbParam s, ratsParam s, total_lora_count s,
        lora_count s, deploy_length s, retract_length s,
        mcb_motion_ongoing s) /\
   events (FlightMode s)
     = events (statusMsgCheck STATUS_MSG_PERIOD_SECS s)
       ++ [EvLog LOG_NOMINAL [Txt "Entering FL_SEND_TELEMETRY"]]) /\
  (state_of (FlightMode e) = set_inst_substate FL_GPS_WAIT (before_switch e) /\
   inst_substate (state_of (FlightMode e)) = FL_GPS_WAIT /\
   events (FlightMode e)
     = events (statusMsgCheck STATUS_MSG_PERIOD_SECS e)
       ++ [EvLog LOG_NOMINAL [Txt "Entering FL"];
           EvAddAction ACTION_SEND_STATUS 1;
           EvAddAction ACTION_SIM_LORA_MSG 30;
           EvAddAction ACTION_GPS_WAIT_MSG 5;
           EvLog LOG_NOMINAL [Txt "Entering FL_GPS_WAIT"]]).
Proof.
  split.
  - enter_switch s Hsub; rewrite Hstart; simpl;
      repeat (split; [reflexivity |]);
      (split; [| split; reflexivity]);
      intros a Ha Hb;
      destruct (ScheduleAction_eq_dec a ACTION_START_TELEMETRY);
      try destruct (ScheduleAction_eq_dec a ACTION_SEND_STATUS);
      congruence.
  - enter_switch e Hentry; repeat split.
Qed.

(** Distinct case labels keep the two manual sub-states out of the error,
    shutdown and exit cases. *)
Lemma manual_labels_free (Hlabels : NoDup flight_labels) :
  (MODE_ENTRY + 7 <> MODE_ERROR /\ MODE_ENTRY + 7 <> MODE_SHUTDOWN /\
   MODE_ENTRY + 7 <> MODE_EXIT) /\
  (MODE_ENTRY + 8 <> MODE_ERROR /\ MODE_ENTRY + 8 <> MODE_SHUTDOWN /\
   MODE_ENTRY + 8 <> MODE_EXIT).
Proof.
  unfold flight_labels in Hlabels. flight_consts.
  repeat match goal with
  | H : NoDup (_ :: _) |- _ =>
      apply NoDup_cons_iff in H; destruct H as [? H]
  end.
  simpl in *. intuition congruence.
Qed.

(** C4, as the code has it.  In [FLM_MANUAL_MOTION], when the motion
    sub-machine returns [true] the sub-state becomes [FLM_IDLE].  A tick in
    [FLM_IDLE] leaves the sub-state at [FLM_IDLE], or moves it to
    [FLM_MANUAL_MOTION] when a reel flag is raised; it never sets
    [FL_MEASURE]. *)
Theorem manual_motion_done_then_idle (s i : StratoRATS)
  (Hlabels : NoDup flight_labels)
  (Hsub : inst_substate s = FLM_MANUAL_MOTION)
  (Hdone : result (Flight_ManualMotion false (before_switch s)) = true)
  (Hidle : inst_substate i = FLM_IDLE) :
  inst_substate (state_of (FlightMode s)) = FLM_IDLE /\
  inst_substate (state_of (FlightMode i))
    = (if flag_value (action_flags i ACTION_REEL_IN)
          || flag_value (action_flags i ACTION_REEL_OUT)
       then FLM_MANUAL_MOTION else FLM_IDLE) /\
  inst_substate (state_of (FlightMode i)) <> FL_MEASURE.
Proof.
  destruct (manual_labels_free Hlabels) as [[? [? ?]] [? [? ?]]].
  assert (Hi : inst_substate (state_of (FlightMode i))
    = (if flag_value (action_flags i ACTION_REEL_IN)
          || flag_value (action_flags i ACTION_REEL_OUT)
       then FLM_MANUAL_MOTION else FLM_IDLE)).
  { clear Hdone Hsub.
    enter_switch i Hidle;
      destruct (flag_value (action_flags i ACTION_REEL_IN)); simpl;
      try (destruct (Flight_ManualMotion true _) as [[? ?] ?]; reflexivity);
      destruct (flag_value (action_flags i ACTION_REEL_OUT)); simpl;
      try (destruct (Flight_ManualMotion true _) as [[? ?] ?]; reflexivity);
      exact Hidle. }
  split; [| split].
  - clear Hi Hidle. unfold before_switch in Hdone. rewrite Hsub in Hdone.
    enter_switch s Hsub;
      destruct (Flight_ManualMotion false _) as [[d s'] ev];
      simpl in Hdone; subst d; reflexivity.
  - exact Hi.
  - rewrite Hi.
    destruct (flag_value (action_flags i ACTION_REEL_IN)
              || flag_value (action_flags i ACTION_REEL_OUT));
      flight_consts; lia.
Qed.

End FlightFacts.

(** ** The single-tick facts at the sample instrument *)

Lemma sample_labels_distinct : NoDup (@flight_labels sample).
Proof.
  unfold flight_labels.
  repeat (apply NoDup_cons; [simpl; intuition discriminate |]).
  apply NoDup_nil.
Qed.

Lemma send_telemetry_tick_witness :
  inst_substate (object_at 6) = @FL_SEND_TELEMETRY sample /\
  (state_of (@FlightMode sample (object_at 6))
     = set_inst_substate (@FL_MEASURE sample)
         (@before_switch sample (object_at 6)) /\
   inst_substate (state_of (@FlightMode sample (object_at 6)))
     = @FL_MEASURE sample /\
   events (@FlightMode sample (object_at 6))
     = events (statusMsgCheck (@STATUS_MSG_PERIOD_SECS sample) (object_at 6))
       ++ [EvAddAction ACTION_START_TELEMETRY 60;
           EvLog LOG_NOMINAL [Txt "Entering FL_MEASURE"]] /\
   ~ In EvRatsReportTM (events (@FlightMode sample (object_at 6)))).
Proof.
  split.
  - reflexivity.
  - apply (@send_telemetry_tick sample (object_at 6)). reflexivity.
Defined.

(** No flush in [FL_SEND_TELEMETRY]: with the status message due as well,
    the tick emits the status TM, two scheduler calls and one log line, and
    no RATS report. *)
Lemma send_telemetry_flushes_nothing :
  inst_substate (with_flag ACTION_SEND_STATUS (object_at 6))
    = @FL_SEND_TELEMETRY sample /\
  events (@FlightMode sample (with_flag ACTION_SEND_STATUS (object_at 6)))
    = [EvStatusTM 0 NO_MOTION false WARMUP_INPROCESS 0 0;
       EvAddAction ACTION_SEND_STATUS 60;
       EvAddAction ACTION_START_TELEMETRY 60;
       EvLog LOG_NOMINAL [Txt "Entering FL_MEASURE"]] /\
  ~ In EvRatsReportTM
      (events (@FlightMode sample (with_flag ACTION_SEND_STATUS (object_at 6)))).
Proof.
  split; [reflexivity | split; [reflexivity |]].
  simpl. intuition discriminate.
Qed.

Lemma manual_motion_done_then_idle_witness :
  NoDup (@flight_labels sample) /\
  inst_substate motion_stopping = @FLM_MANUAL_MOTION sample /\
  result (@Flight_ManualMotion sample false
            (@before_switch sample motion_stopping)) = true /\
  inst_substate (object_at 7) = @FLM_IDLE sample /\
  (inst_substate (state_of (@FlightMode sample motion_stopping))
     = @FLM_IDLE sample /\
   inst_substate (state_of (@FlightMode sample (object_at 7)))
     = (if flag_value (action_flags (object_at 7) ACTION_REEL_IN)
           || flag_value (action_flags (object_at 7) ACTION_REEL_OUT)
        then @FLM_MANUAL_MOTION sample else @FLM_IDLE sample) /\
   inst_substate (state_of (@FlightMode sample (object_at 7)))
     <> @FL_MEASURE sample).
Proof.
  split; [exact sample_labels_distinct |].
  split; [reflexivity |].
  split; [reflexivity |].
  split; [reflexivity |].
  apply (@manual_motion_done_then_idle sample motion_stopping (object_at 7)).
  - exact sample_labels_distinct.
  - reflexivity.
  - reflexivity.
  - reflexivity.
Defined.

(** No return to [FL_MEASURE]: the motion sub-machine reports completion,
    the machine goes to [FLM_IDLE], and one tick later it is still in
    [FLM_IDLE], not in [FL_MEASURE]. *)
Lemma idle_does_not_return_to_measure :
  inst_substate motion_stopping = @FLM_MANUAL_MOTION sample /\
  result (@Flight_ManualMotion sample false
            (@before_switch sample motion_stopping)) = true /\
  inst_substate (state_of (@FlightMode sample motion_stopping))
    = @FLM_IDLE sample /\
  inst_substate
    (state_of (@FlightMode sample
                 (state_of (@FlightMode sample motion_stopping))))
    = @FLM_IDLE sample /\
  inst_substate
    (state_of (@FlightMode sample
                 (state_of (@FlightMode sample motion_stopping))))
    <> @FL_MEASURE sample.
Proof.
  repeat split; try reflexivity. vm_compute. discriminate.
Qed.

Lemma start_telemetry_frame_and_entry_witness :
  inst_substate measure_start_due = @FL_MEASURE sample /\
  flag_value (action_flags measure_start_due ACTION_START_TELEMETRY) = true /\
  inst_substate (object_at 0) = @FL_ENTRY sample /\
  (state_of (@FlightMode sample measure_start_due)
     = set_inst_substate (@FL_SEND_TELEMETRY sample)
         (set_action_flags
            (upd (action_flags (@before_switch sample measure_start_due))
               ACTION_START_TELEMETRY
               {| flag_value := false;
                  stale_count :=
                    stale_count
                      (action_flags measure_start_due
                         ACTION_START_TELEMETRY) |})
            (@before_switch sample measure_start_due)) /\
   inst_substate (state_of (@FlightMode sample measure_start_due))
     = @FL_SEND_TELEMETRY sample /\
   action_flags (state_of (@FlightMode sample measure_start_due))
       ACTION_REEL_OUT
     = action_flags measure_start_due ACTION_REEL_OUT /\
   action_flags (state_of (@FlightMode sample measure_start_due))
       ACTION_REEL_IN
     = action_flags measure_start_due ACTION_REEL_IN /\
   mcb_motion (state_of (@FlightMode sample measure_start_due))
     = mcb_motion measure_start_due /\
   (forall a, a <> ACTION_START_TELEMETRY -> a <> ACTION_SEND_STATUS ->
      action_flags (state_of (@FlightMode sample measure_start_due)) a
        = action_flags measure_start_due a) /\
   (time_valid (state_of (@FlightMode sample measure_start_due)),
    mcbParam (state_of (@FlightMode sample measure_start_due)),
    ratsParam (state_of (@FlightMode sample measure_start_due)),
    total_lora_count (state_of (@FlightMode sample measure_start_due)),
    lora_count (state_of (@FlightMode sample measure_start_due)),
    deploy_length (state_of (@FlightMode sample measure_start_due)),
    retract_length (state_of (@FlightMode sample measure_start_due)),
    mcb_motion_ongoing (state_of (@FlightMode sample measure_start_due)))
     = (time_valid measure_start_due, mcbParam measure_start_due,
        ratsParam measure_start_due, total_lora_count measure_start_due,
        lora_count measure_start_due, deploy_length measure_start_due,
        retract_length measure_start_due,
        mcb_motion_ongoing measure_start_due) /\
   events (@FlightMode sample measure_start_due)
     = events (statusMsgCheck (@STATUS_MSG_PERIOD_SECS sample)
                 measure_start_due)
       ++ [EvLog LOG_NOMINAL [Txt "Entering FL_SEND_TELEMETRY"]]) /\
  (state_of (@FlightMode sample (object_at 0))
     = set_inst_substate (@FL_GPS_WAIT sample)
         (@before_switch sample (object_at 0)) /\
   inst_substate (state_of (@FlightMode sample (object_at 0)))
     = @FL_GPS_WAIT sample /\
   events (@FlightMode sample (object_at 0))
     = events (statusMsgCheck (@STATUS_MSG_PERIOD_SECS sample) (object_at 0))
       ++ [EvLog LOG_NOMINAL [Txt "Entering FL"];
           EvAddAction ACTION_SEND_STATUS 1;
           EvAddAction ACTION_SIM_LORA_MSG 30;
           EvAddAction ACTION_GPS_WAIT_MSG 5;
           EvLog LOG_NOMINAL [Txt "Entering FL_GPS_WAIT"]]).
Proof.
  split; [reflexivity |].
  split; [reflexivity |].
  split; [reflexivity |].
  apply (@start_telemetry_frame_and_entry sample measure_start_due
           (object_at 0)); reflexivity.
Defined.

(** ** Warmup: from [FL_ENTRY] to [FL_MEASURE] *)

Section Warmup.
Context {X : Externals}.

(** *** What the scheduler and the LoRa poll leave for the state machine *)

Lemma fire_spec (l : list ScheduleAction_t) (s : StratoRATS) :
  inst_substate (state_of (fire l s)) = inst_substate s /\
  time_valid (state_of (fire l s)) = time_valid s /\
  lora_count (state_of (fire l s)) = lora_count s /\
  events (fire l s) = [] /\
  (forall a, In a l \/ flag_value (action_flags s a) = true ->
     flag_value (action_flags (state_of (fire l s)) a) = true).
Proof.
  revert s. induction l as [| b l IH]; intros s.
  - simpl. repeat (split; [reflexivity |]).
    intros a [[] | H]. exact H.
  - simpl. unfold ActionHandler, SetAction. monad_unfold. simpl.
    match goal with
    | |- context [fire l ?st] =>
        destruct (IH st) as [Hsub [Htv [Hlc [Hev Hfl]]]];
        destruct (fire l st) as [[u s'] ev] eqn:E
    end.
    simpl in *. subst ev.
    repeat (split; [assumption || reflexivity |]).
    intros a Ha. apply Hfl. unfold upd.
    destruct (ScheduleAction_eq_dec a b) as [-> | Hne].
    + right. reflexivity.
    + destruct Ha as [[Hab | Hin] | Hfv]; [congruence | now left | now right].
Qed.

Lemma delivered_frame (i : LoopInput) (s : StratoRATS) :
  inst_substate (delivered i s) = inst_substate s /\
  time_valid (delivered i s) = time_valid s /\
  lora_count (delivered i s)
    = (if lora_rx i then uint32 (lora_count s + 1) else lora_count s) /\
  (forall a, In a (fired i) ->
     flag_value (action_flags (delivered i s) a) = true).
Proof.
  unfold delivered.
  destruct (fire_spec (fired i) (state_of (LoRaRX (lora_rx i) s)))
    as [Hsub [Htv [Hlc [_ Hfl]]]].
  rewrite Hsub, Htv, Hlc.
  unfold LoRaRX. monad_unfold.
  destruct (lora_rx i); simpl; repeat (split; [reflexivity |]);
    intros a Ha; apply Hfl; now left.
Qed.

Lemma loop_delivered (i : LoopInput) (s : StratoRATS) :
  state_of (loop i s) = state_of (FlightMode (delivered i s)) /\
  events (loop i s) = events (FlightMode (delivered i s)).
Proof.
  unfold loop, delivered.
  destruct (fire_spec (fired i) (state_of (LoRaRX (lora_rx i) s)))
    as [_ [_ [_ [Hev _]]]].
  unfold bind, state_of, events in *.
  assert (HL : snd (LoRaRX (lora_rx i) s) = []).
  { unfold LoRaRX, modify, ret. destruct (lora_rx i); reflexivity. }
  destruct (LoRaRX (lora_rx i) s) as [[u1 s1] e1]. simpl in *. subst e1.
  destruct (fire (fired i) s1) as [[u2 s2] e2]. simpl in *. subst e2.
  destruct (FlightMode s2) as [[u3 s3] e3]. simpl. auto.
Qed.

(** *** The five warmup ticks *)

Lemma tick_entry (s : StratoRATS) :
  inst_substate s = FL_ENTRY ->
  inst_substate (state_of (FlightMode s)) = FL_GPS_WAIT /\
  time_valid (state_of (FlightMode s)) = time_valid s.
Proof. intros H. enter_switch s H; split; reflexivity. Qed.

Lemma tick_gps_wait (s : StratoRATS) :
  inst_substate s = FL_GPS_WAIT ->
  time_valid s = true ->
  inst_substate (state_of (FlightMode s)) = FL_LORA_WAIT1 /\
  lora_count (state_of (FlightMode s)) = 0.
Proof.
  intros H Htv.
  enter_switch s H;
    destruct (flag_value (action_flags s ACTION_GPS_WAIT_MSG)); simpl;
    rewrite Htv; simpl; split; reflexivity.
Qed.

Lemma tick_lora_wait1 (s : StratoRATS) :
  inst_substate s = FL_LORA_WAIT1 ->
  lora_count (state_of (FlightMode s)) = lora_count s /\
  inst_substate (state_of (FlightMode s))
    = (if flag_value (action_flags s ACTION_LORA_WAIT_MSG)
          && (lora_count s >=? LORA_MSG_COUNT)
       then FL_CONFIG_ECU else FL_LORA_WAIT1) /\
  (flag_value (action_flags s ACTION_LORA_WAIT_MSG) = true ->
   LORA_MSG_COUNT <= lora_count s -> True).
Proof.
  intros H.
  enter_switch s H;
    destruct (flag_value (action_flags s ACTION_LORA_WAIT_MSG)); simpl;
    try destruct (lora_count s >=? LORA_MSG_COUNT); simpl; auto.
Qed.

Lemma tick_config_ecu (s : StratoRATS) :
  inst_substate s = FL_CONFIG_ECU ->
  inst_substate (state_of (FlightMode s)) = FL_LORA_WAIT2 /\
  lora_count (state_of (FlightMode s)) = 0.
Proof. intros H. enter_switch s H; split; reflexivity. Qed.

Lemma tick_lora_wait2 (s : StratoRATS) :
  inst_substate s = FL_LORA_WAIT2 ->
  lora_count (state_of (FlightMode s)) = lora_count s /\
  inst_substate (state_of (FlightMode s))
    = (if flag_value (action_flags s ACTION_LORA_WAIT_MSG)
          && (lora_count s >=? LORA_MSG_COUNT)
       then FL_MEASURE else FL_LORA_WAIT2) /\
  (flag_value (action_flags s ACTION_LORA_WAIT_MSG) = true ->
   LORA_MSG_COUNT <= lora_count s ->
   In (EvAddAction ACTION_START_TELEMETRY 0) (events (FlightMode s))).
Proof.
  intros H.
  assert (G : forall c, LORA_MSG_COUNT <= c -> (c >=? LORA_MSG_COUNT) = true).
  { intros c Hc. rewrite Z.geb_leb. apply Z.leb_le. exact Hc. }
  enter_switch s H;
    destruct (flag_value (action_flags s ACTION_LORA_WAIT_MSG)); simpl;
    (split; [| split]);
    try reflexivity;
    try exact H;
    try (destruct (lora_count s >=? LORA_MSG_COUNT);
         solve [reflexivity | exact H]);
    try (intros Hf; discriminate Hf);
    intros _ Hc; rewrite (G _ Hc); simpl; intuition.
Qed.

(** *** Runs *)

Lemma run_from_add (ins : nat -> LoopInput) (n m k : nat) (s : StratoRATS) :
  run_from ins k (n + m) s = run_from ins (k + n) m (run_from ins k n s).
Proof.
  revert k s. induction n as [| n IH]; intros k s; simpl.
  - rewrite Nat.add_0_r. reflexivity.
  - rewrite IH. rewrite <- Nat.add_succ_comm. reflexivity.
Qed.

Lemma msgs_in_nonneg (ins : nat -> LoopInput) (n k : nat) :
  0 <= msgs_in ins k n.
Proof.
  revert k. induction n as [| n IH]; intros k; simpl; [lia |].
  specialize (IH (S k)). destruct (lora_rx (ins k)); lia.
Qed.

Lemma msgs_in_mono (ins : nat -> LoopInput) (n m k : nat) :
  (n <= m)%nat -> msgs_in ins k n <= msgs_in ins k m.
Proof.
  revert m k. induction n as [| n IH]; intros m k Hnm.
  - apply msgs_in_nonneg.
  - destruct m as [| m]; [lia |]. simpl.
    specialize (IH m (S k)). destruct (lora_rx (ins k)); lia.
Qed.

Lemma phase_mono (a b i j : nat) :
  (i <= j)%nat -> phase a b i <= phase a b j.
Proof.
  intros Hij. unfold phase. flight_consts.
  repeat match goal with
  | |- context [(?x =? ?y)%nat] => destruct (Nat.eqb_spec x y)
  | |- context [(?x <=? ?y)%nat] => destruct (Nat.leb_spec x y)
  end; lia.
Qed.

Section Gate.
(** A waiting sub-state [here] that moves on to [next] in the first pass in
    which [ACTION_LORA_WAIT_MSG] is raised and the LoRa count has reached
    [LORA_MSG_COUNT]. *)
Variables here next : Z.
Variable P : list Event -> Prop.
Hypothesis Hstep : forall s,
  inst_substate s = here ->
  lora_count (state_of (FlightMode s)) = lora_count s /\
  inst_substate (state_of (FlightMode s))
    = (if flag_value (action_flags s ACTION_LORA_WAIT_MSG)
          && (lora_count s >=? LORA_MSG_COUNT)
       then next else here) /\
  (flag_value (action_flags s ACTION_LORA_WAIT_MSG) = true ->
   LORA_MSG_COUNT <= lora_count s -> P (events (FlightMode s))).
Variable ins : nat -> LoopInput.

Lemma gate_run (n : nat) :
  forall (k : nat) (s : StratoRATS),
    inst_substate s = here ->
    0 <= lora_count s ->
    lora_count s + Z.of_nat n < 2 ^ 32 ->
    (exists j, (j < n)%nat /\
       In ACTION_LORA_WAIT_MSG (fired (ins (k + j)%nat)) /\
       LORA_MSG_COUNT <= lora_count s + msgs_in ins k (S j)) ->
    exists a : nat,
      (S a <= n)%nat /\
      (forall j, (j <= a)%nat -> inst_substate (run_from ins k j s) = here) /\
      inst_substate (run_from ins k (S a) s) = next /\
      P (events (loop (ins (k + a)%nat) (run_from ins k a s))).
Proof.
  induction n as [| n IH]; intros k s Hsub Hpos Hsmall [j [Hj [Hfj Hmj]]].
  - lia.
  - destruct (delivered_frame (ins k) s) as [Dsub [_ [Dcnt Dfl]]].
    destruct (loop_delivered (ins k) s) as [Lst Lev].
    rewrite Hsub in Dsub.
    destruct (Hstep _ Dsub) as [Scnt [Ssub Sev]].
    assert (Dcnt' : lora_count (delivered (ins k) s)
                    = lora_count s + (if lora_rx (ins k) then 1 else 0)).
    { rewrite Dcnt. destruct (lora_rx (ins k)); [| lia].
      unfold uint32. apply Z.mod_small. lia. }
    destruct (flag_value (action_flags (delivered (ins k) s)
                            ACTION_LORA_WAIT_MSG)
              && (lora_count (delivered (ins k) s) >=? LORA_MSG_COUNT))
      eqn:E.
    + apply andb_true_iff in E. destruct E as [Efl Ecnt].
      rewrite Z.geb_leb in Ecnt. apply Z.leb_le in Ecnt.
      exists 0%nat. split; [lia |]. split; [| split].
      * intros j' Hj'. replace j' with 0%nat by lia. exact Hsub.
      * simpl. rewrite Lst. exact Ssub.
      * rewrite Nat.add_0_r. simpl. rewrite Lev. apply Sev; assumption.
    + destruct j as [| j].
      { (* the gate would have opened in this very pass *)
        exfalso. rewrite Nat.add_0_r in Hfj.
        rewrite (Dfl _ Hfj) in E. simpl in E, Hmj.
        rewrite Z.geb_leb in E. apply Z.leb_gt in E. lia. }
      destruct (IH (S k) (state_of (loop (ins k) s))) as [a [Ha [Hja [Hn Hp]]]].
      * rewrite Lst. exact Ssub.
      * rewrite Lst, Scnt, Dcnt'. destruct (lora_rx (ins k)); lia.
      * rewrite Lst, Scnt, Dcnt'. destruct (lora_rx (ins k)); lia.
      * exists j. split; [lia |]. split.
        -- rewrite Nat.add_succ_comm. exact Hfj.
        -- rewrite Lst, Scnt, Dcnt'.
           change (msgs_in ins k (S (S j)))
             with ((if lora_rx (ins k) then 1 else 0)
                   + msgs_in ins (S k) (S j)) in Hmj.
           lia.
      * exists (S a). split; [lia |]. split; [| split].
        -- intros [| j'] Hle; [exact Hsub |]. simpl. apply Hja. lia.
        -- exact Hn.
        -- rewrite <- Nat.add_succ_comm. exact Hp.
Qed.

End Gate.

(** C2.  From [FL_ENTRY] with [time_valid] set, if [ACTION_LORA_WAIT_MSG]
    fires at least once in any [D] consecutive passes of the loop and at
    least [LORA_MSG_COUNT] LoRa messages arrive in any [W] consecutive
    passes, the machine is in [FL_ENTRY], then one pass in [FL_GPS_WAIT],
    [a] passes in [FL_LORA_WAIT1], one in [FL_CONFIG_ECU], [b] passes in
    [FL_LORA_WAIT2], and in [FL_MEASURE] after [3 + a + b] passes, where
    [1 <= a, b <= W + D - 1]; the sub-state never decreases on the way; and
    the pass that enters [FL_MEASURE] schedules [ACTION_START_TELEMETRY]
    with a delay of 0 s.  [W + D < 2 ^ 32] keeps the 32-bit LoRa counter
    from wrapping while the machine waits. *)
Theorem nominal_warmup (ins : nat -> LoopInput) (W D : nat) (s0 : StratoRATS)
  (Hentry : inst_substate s0 = FL_ENTRY)
  (Htime : time_valid s0 = true)
  (Hfire : forall k, exists j, (j < D)%nat /\
             In ACTION_LORA_WAIT_MSG (fired (ins (k + j)%nat)))
  (Hlora : forall k, LORA_MSG_COUNT <= msgs_in ins k W)
  (Hsmall : Z.of_nat (W + D) < 2 ^ 32) :
  exists a b : nat,
    (1 <= a <= W + D - 1)%nat /\ (1 <= b <= W + D - 1)%nat /\
    (forall j, (j <= 3 + a + b)%nat ->
       inst_substate (run_from ins 0 j s0) = phase a b j) /\
    inst_substate (run_from ins 0 (3 + a + b) s0) = FL_MEASURE /\
    (forall i j, (i <= j <= 3 + a + b)%nat ->
       inst_substate (run_from ins 0 i s0)
         <= inst_substate (run_from ins 0 j s0)) /\
    In (EvAddAction ACTION_START_TELEMETRY 0)
       (loop_events ins (2 + a + b) s0).
Proof.
  assert (HW : (1 <= W)%nat).
  { destruct W; [| lia]. specialize (Hlora 0%nat). simpl in Hlora.
    unfold LORA_MSG_COUNT in Hlora. lia. }
  (* the gate opens within W + D - 1 passes of any pass k *)
  assert (Hgate : forall k c, c = 0 ->
            exists j, (j < W + D - 1)%nat /\
              In ACTION_LORA_WAIT_MSG (fired (ins (k + j)%nat)) /\
              LORA_MSG_COUNT <= c + msgs_in ins k (S j)).
  { intros k c ->. destruct (Hfire (k + (W - 1))%nat) as [j [Hj Hin]].
    exists (W - 1 + j)%nat. split; [lia |]. split.
    - rewrite Nat.add_assoc. exact Hin.
    - pose proof (msgs_in_mono ins W (S (W - 1 + j)) k ltac:(lia)).
      specialize (Hlora k). lia. }
  (* pass 0: FL_ENTRY *)
  destruct (delivered_frame (ins 0%nat) s0) as [D0sub [D0tv _]].
  destruct (loop_delivered (ins 0%nat) s0) as [L0 _].
  rewrite Hentry in D0sub.
  destruct (tick_entry _ D0sub) as [S1sub S1tv].
  rewrite <- L0 in S1sub, S1tv. rewrite D0tv, Htime in S1tv.
  set (s1 := state_of (loop (ins 0%nat) s0)) in *.
  (* pass 1: FL_GPS_WAIT *)
  destruct (delivered_frame (ins 1%nat) s1) as [D1sub [D1tv _]].
  destruct (loop_delivered (ins 1%nat) s1) as [L1 _].
  rewrite S1sub in D1sub. rewrite S1tv in D1tv.
  destruct (tick_gps_wait _ D1sub D1tv) as [S2sub S2cnt].
  rewrite <- L1 in S2sub, S2cnt.
  set (s2 := state_of (loop (ins 1%nat) s1)) in *.
  assert (T2 : run_from ins 0 2 s0 = s2) by reflexivity.
  (* FL_LORA_WAIT1 *)
  destruct (gate_run FL_LORA_WAIT1 FL_CONFIG_ECU (fun _ => True)
              tick_lora_wait1 ins (W + D - 1) 2%nat s2 S2sub)
    as [a [Ha [Hja [Hna _]]]].
  { rewrite S2cnt. lia. }
  { rewrite S2cnt. lia. }
  { apply Hgate. exact S2cnt. }
  set (s3 := run_from ins 2 (S a) s2) in *.
  (* FL_CONFIG_ECU *)
  destruct (delivered_frame (ins (3 + a)%nat) s3) as [D3sub _].
  destruct (loop_delivered (ins (3 + a)%nat) s3) as [L3 _].
  rewrite Hna in D3sub.
  destruct (tick_config_ecu _ D3sub) as [S4sub S4cnt].
  rewrite <- L3 in S4sub, S4cnt.
  set (s4 := state_of (loop (ins (3 + a)%nat) s3)) in *.
  (* FL_LORA_WAIT2 *)
  destruct (gate_run FL_LORA_WAIT2 FL_MEASURE
              (In (EvAddAction ACTION_START_TELEMETRY 0))
              tick_lora_wait2 ins (W + D - 1) (4 + a)%nat s4 S4sub)
    as [b [Hb [Hjb [Hnb Hev]]]].
  { rewrite S4cnt. lia. }
  { rewrite S4cnt. lia. }
  { apply Hgate. exact S4cnt. }
  (* the run from pass 0 *)
  assert (T3 : forall j, run_from ins 0 (2 + j) s0 = run_from ins 2 j s2).
  { intros j. rewrite (run_from_add ins 2 j 0 s0). rewrite T2. reflexivity. }
  assert (T4 : run_from ins 0 (4 + a) s0 = s4).
  { replace (4 + a)%nat with (2 + S a + 1)%nat by lia.
    rewrite (run_from_add ins (2 + S a) 1 0 s0). rewrite T3. fold s3.
    simpl. replace (S (S (S a))) with (3 + a)%nat by lia. reflexivity. }
  assert (T5 : forall j,
             run_from ins 0 (4 + a + j) s0 = run_from ins (4 + a) j s4).
  { intros j. rewrite (run_from_add ins (4 + a) j 0 s0). rewrite T4.
    reflexivity. }
  assert (Hphase : forall j, (j <= 3 + S a + S b)%nat ->
            inst_substate (run_from ins 0 j s0) = phase (S a) (S b) j).
  { intros j Hj. unfold phase.
    destruct (Nat.eqb_spec j 0) as [-> | N0].
    { exact Hentry. }
    destruct (Nat.eqb_spec j 1) as [-> | N1].
    { exact S1sub. }
    destruct (Nat.leb_spec j (1 + S a)) as [Le1 | Gt1].
    { replace j with (2 + (j - 2))%nat by lia. rewrite T3.
      rewrite Hja by lia. reflexivity. }
    destruct (Nat.eqb_spec j (2 + S a)) as [-> | N2].
    { rewrite T3. exact Hna. }
    destruct (Nat.leb_spec j (2 + S a + S b)) as [Le2 | Gt2].
    { replace j with (4 + a + (j - (4 + a)))%nat by lia. rewrite T5.
      rewrite Hjb by lia. reflexivity. }
    replace j with (4 + a + S b)%nat by lia. rewrite T5. exact Hnb. }
  exists (S a), (S b).
  split; [lia |]. split; [lia |]. split; [exact Hphase |].
  split; [| split].
  - replace (3 + S a + S b)%nat with (4 + a + S b)%nat by lia.
    rewrite T5. exact Hnb.
  - intros i j Hij. rewrite !Hphase by lia.
    pose proof (phase_mono (S a) (S b) i j). lia.
  - unfold loop_events.
    replace (2 + S a + S b)%nat with (4 + a + b)%nat by lia.
    rewrite T5. exact Hev.
Qed.

End Warmup.

Lemma steady_fires (k : nat) :
  exists j, (j < 1)%nat /\ In ACTION_LORA_WAIT_MSG (fired (steady (k + j)%nat)).
Proof. exists 0%nat. split; [lia | left; reflexivity]. Qed.

Lemma steady_delivers (k : nat) : LORA_MSG_COUNT <= msgs_in steady k 3.
Proof. vm_compute. discriminate. Qed.

Lemma nominal_warmup_witness :
  inst_substate entry_time_valid = @FL_ENTRY sample /\
  time_valid entry_time_valid = true /\
  (forall k, exists j, (j < 1)%nat /\
     In ACTION_LORA_WAIT_MSG (fired (steady (k + j)%nat))) /\
  (forall k, LORA_MSG_COUNT <= msgs_in steady k 3) /\
  Z.of_nat (3 + 1) < 2 ^ 32 /\
  (exists a b : nat,
     (1 <= a <= 3 + 1 - 1)%nat /\ (1 <= b <= 3 + 1 - 1)%nat /\
     (forall j, (j <= 3 + a + b)%nat ->
        inst_substate (@run_from sample steady 0 j entry_time_valid)
          = @phase sample a b j) /\
     inst_substate (@run_from sample steady 0 (3 + a + b) entry_time_valid)
       = @FL_MEASURE sample /\
     (forall i j, (i <= j <= 3 + a + b)%nat ->
        inst_substate (@run_from sample steady 0 i entry_time_valid)
          <= inst_substate (@run_from sample steady 0 j entry_time_valid)) /\
     In (EvAddAction ACTION_START_TELEMETRY 0)
        (@loop_events sample steady (2 + a + b) entry_time_valid)).
Proof.
  split; [reflexivity |].
  split; [reflexivity |].
  split; [exact steady_fires |].
  split; [exact steady_delivers |].
  split; [reflexivity |].
  apply (@nominal_warmup sample steady 3%nat 1%nat entry_time_valid).
  - reflexivity.
  - reflexivity.
  - exact steady_fires.
  - exact steady_delivers.
  - reflexivity.
Defined.

(** Scenario S1 at the sample instrument, one LoRa message per pass: the
    sub-states after 0, 1, ..., 9 passes, and the events of the pass that
    enters [FL_MEASURE]. *)
Example steady_warmup_trace :
  map (fun j => inst_substate (@run_from sample steady 0 j entry_time_valid))
      (seq 0 10)
    = [0; 1; 2; 2; 2; 3; 4; 4; 4; 5] /\
  @loop_events sample steady 8 entry_time_valid
    = [EvLog LOG_NOMINAL [Txt "FL_LORA_WAIT waiting for LoRa message"];
       EvAddAction ACTION_LORA_WAIT_MSG 1;
       EvLog LOG_NOMINAL [Txt "FL_LORA_WAIT LoRa messages received"];
       EvAddAction ACTION_START_TELEMETRY 0;
       EvLog LOG_NOMINAL [Txt "Entering FL_MEASURE"]].
Proof. split; reflexivity. Qed.

(** ** The tie between the two reel flags *)

Section TieBreak.
Context {X : Externals}.

Ltac open_helpers Hmotion Hshut :=
  repeat match goal with
  | |- context [Flight_ManualMotion ?b ?st] =>
      let Fo := fresh "Fo" in
      let Fi := fresh "Fi" in
      destruct (Hmotion b st) as [Fo Fi];
      destruct (Flight_ManualMotion b st) as [[? ?] ?]; simpl in Fo, Fi
  | |- context [RATS_Shutdown ?st] =>
      let Fs := fresh "Fs" in
      let Fo := fresh "Fo" in
      let Fi := fresh "Fi" in
      destruct (Hshut st) as [Fs [Fo Fi]];
      destruct (RATS_Shutdown st) as [[? ?] ?]; simpl in Fs, Fo, Fi
  end.






(** *** Steps of the code outside *)





(** So is the telecommand handler, wherever it refuses the two length
    commands. *)
Lemma TCHandler_outside_step
  (tx_ok : bool) (tc : Telecommand_t) (s : StratoRATS) :
  inst_substate s <> Hdr_FL_MEASURE ->
  outside_step s (state_of (TCHandler tx_ok tc s)).
Proof.
  intros Hne _. apply Z.eqb_neq in Hne.
  destruct tc;
    unfold TCHandler, TC_switch, TC_summary, TX_ASCII, SetAction, bind, ret,
      gets, modify, emit, result, events, state_of; simpl;
    rewrite ?Hne; simpl;
    repeat match goal with
    | |- context [if ?c then _ else _] => destruct c
    end; simpl; auto.
Qed.

End TieBreak.

(** *** The tie at the sample instrument *)






(** The two outcomes in [FL_MEASURE], run: without the telemetry flag the
    tick starts the reel-out motion and keeps the reel-in command pending;
    with it the tick goes to [FL_SEND_TELEMETRY] and keeps both. *)
Example tie_after_warmup_tick :
  inst_substate tie_after_warmup = 5 /\
  inst_substate (state_of (@FlightMode sample tie_after_warmup)) = 8 /\
  mcb_motion (state_of (@FlightMode sample tie_after_warmup))
    = MOTION_REEL_OUT /\
  flag_value
    (action_flags (state_of (@FlightMode sample tie_after_warmup))
       ACTION_REEL_OUT) = false /\
  flag_value
    (action_flags (state_of (@FlightMode sample tie_after_warmup))
       ACTION_REEL_IN) = true /\
  inst_substate (state_of (@FlightMode sample tie_with_start_due)) = 6 /\
  flag_value
    (action_flags (state_of (@FlightMode sample tie_with_start_due))
       ACTION_REEL_OUT) = true /\
  flag_value
    (action_flags (state_of (@FlightMode sample tie_with_start_due))
       ACTION_REEL_IN) = true.
Proof. repeat split. Qed.

(** * Further properties *)

(** ** The telecommand handler, all commands *)

Section TCHandlerAll.
Context {X : Externals}.

Ltac tc_run :=
  unfold TCHandler, TC_switch, TC_summary, TX_ASCII, SetAction, bind, ret,
    gets, modify, emit, result, events, state_of; simpl.

Ltac tc_cases s tx :=
  repeat match goal with
  | |- context [inst_substate s =? ?v] =>
      destruct (inst_substate s =? v)
  | |- context [mcb_motion_ongoing s] => destruct (mcb_motion_ongoing s)
  | |- context [negb tx] => destruct tx
  end; simpl.

(** X1.  Whatever the telecommand, the handler leaves the sub-state, the
    motion context, the LoRa counters, the time flag and the parameter
    unions as they are: only [deploy_length], [retract_length] and the flag
    table can differ afterwards.  Every command other than [DEPLOYx],
    [RETRACTx] and [CANCELMOTION] leaves the whole object as it was; that
    includes [FULLRETRACT], which is acknowledged but does nothing. *)
Theorem TCHandler_frame (tx_ok : bool) (tc : Telecommand_t) (s : StratoRATS) :
  (inst_substate (state_of (TCHandler tx_ok tc s)),
   flight_mode_substate (state_of (TCHandler tx_ok tc s)),
   time_valid (state_of (TCHandler tx_ok tc s)),
   mcbParam (state_of (TCHandler tx_ok tc s)),
   ratsParam (state_of (TCHandler tx_ok tc s)),
   total_lora_count (state_of (TCHandler tx_ok tc s)),
   lora_count (state_of (TCHandler tx_ok tc s)),
   warmup_status (state_of (TCHandler tx_ok tc s)),
   warmup_cycles (state_of (TCHandler tx_ok tc s)),
   mcb_motion_ongoing (state_of (TCHandler tx_ok tc s)),
   mcb_motion (state_of (TCHandler tx_ok tc s)))
  = (inst_substate s, flight_mode_substate s, time_valid s, mcbParam s,
     ratsParam s, total_lora_count s, lora_count s, warmup_status s,
     warmup_cycles s, mcb_motion_ongoing s, mcb_motion s) /\
  (state_of (TCHandler tx_ok tc s) = s \/
   tc = DEPLOYx \/ tc = RETRACTx \/ tc = CANCELMOTION).
Proof.
  split.
  - destruct tc; tc_run;
      repeat match goal with
      | |- context [if ?c then _ else _] => destruct c eqn:?
      end; simpl;
      try match goal with
      | H : mcb_motion_ongoing s = _ |- _ => rewrite H
      end; reflexivity.
  - destruct tc; auto; left; tc_run; tc_cases s tx_ok; reflexivity.
Qed.

(** X2.  The handler never clears a flag.  Every entry of the flag table is
    either untouched or freshly raised (with the full staleness window), and
    only [ACTION_REEL_OUT], [ACTION_REEL_IN] and [ACTION_MOTION_STOP] can be
    raised by a telecommand. *)
Theorem TCHandler_only_raises
  (tx_ok : bool) (tc : Telecommand_t) (s : StratoRATS) (a : ScheduleAction_t) :
  action_flags (state_of (TCHandler tx_ok tc s)) a = action_flags s a \/
  (action_flags (state_of (TCHandler tx_ok tc s)) a
     = {| flag_value := true; stale_count := FLAG_STALE |} /\
   (a = ACTION_REEL_OUT \/ a = ACTION_REEL_IN \/ a = ACTION_MOTION_STOP)).
Proof.
  destruct tc; tc_run; tc_cases s tx_ok; auto; unfold upd;
    match goal with
    | |- context [ScheduleAction_eq_dec a ?b] =>
        destruct (ScheduleAction_eq_dec a b); auto
    end.
Qed.

(** X3.  The five commands guarded by [mcb_motion_ongoing].  While a motion
    is ongoing each of them makes no call at all besides an error log line
    and a warn-level TM; otherwise each makes its one call (zero the reel,
    request the MCB EEPROM, write the real-time flag, dump the RATS EEPROM)
    and reports at fine level. *)
Theorem motion_ongoing_guard (tx_ok : bool) (s : StratoRATS) :
  events (TCHandler tx_ok ZEROREEL s)
    = (if mcb_motion_ongoing s
       then [EvLog LOG_ERROR [Txt "Can't zero reel, motion ongoing"];
             EvZephyrLogWarn [Txt "Can't zero reel, motion ongoing"]]
       else [EvTX_ASCII MCB_ZERO_REEL;
             EvLog LOG_NOMINAL [Txt "TC Zero Reel"];
             EvZephyrLogFine [Txt "TC Zero Reel"]]) /\
  events (TCHandler tx_ok GETMCBEEPROM s)
    = (if mcb_motion_ongoing s
       then [EvLog LOG_ERROR [Txt "Motion ongoing, request MCB EEPROM later"];
             EvZephyrLogWarn
               [Txt "Motion ongoing, request MCB EEPROM later"]]
       else [EvTX_ASCII MCB_GET_EEPROM;
             EvLog LOG_NOMINAL [Txt "TC get MCB EEPROM"];
             EvZephyrLogFine [Txt "TC get MCB EEPROM"]]) /\
  events (TCHandler tx_ok RATSREALTIMEMCBON s)
    = (if mcb_motion_ongoing s
       then [EvLog LOG_ERROR
               [Txt "Cannot start real-time MCB mode, motion ongoing"];
             EvZephyrLogWarn
               [Txt "Cannot start real-time MCB mode, motion ongoing"]]
       else [EvWrite_real_time_mcb true;
             EvLog LOG_NOMINAL [Txt "Enabled real-time MCB mode"];
             EvZephyrLogFine [Txt "Enabled real-time MCB mode"]]) /\
  events (TCHandler tx_ok RATSREALTIMEMCBOFF s)
    = (if mcb_motion_ongoing s
       then [EvLog LOG_ERROR
               [Txt "Cannot start real-time MCB mode, motion ongoing"];
             EvZephyrLogWarn
               [Txt "Cannot start real-time MCB mode, motion ongoing"]]
       else [EvWrite_real_time_mcb false;
             EvLog LOG_NOMINAL [Txt "Disabled real-time MCB mode"];
             EvZephyrLogFine [Txt "Disabled real-time MCB mode"]]) /\
  events (TCHandler tx_ok RATSGETEEPROM s)
    = (if mcb_motion_ongoing s
       then [EvLog LOG_ERROR
               [Txt "Motion ongoing, request RATS EEPROM later"];
             EvZephyrLogWarn
               [Txt "Motion ongoing, request RATS EEPROM later"]]
       else [EvSendRATSEEPROM;
             EvLog LOG_NOMINAL [Txt "TC get RATS EEPROM"];
             EvZephyrLogFine [Txt "TC get RATS EEPROM"]]).
Proof.
  tc_run. destruct (mcb_motion_ongoing s); repeat split.
Qed.

(** X4.  The shape of every run of the handler: at most one call to the MCB
    link, the EEPROM configuration or the EEPROM dump, then the log line,
    then the summary TM, the last two with the same text and matching
    levels (nominal with fine, error with warn). *)
Theorem TCHandler_shape (tx_ok : bool) (tc : Telecommand_t) (s : StratoRATS) :
  exists (acts : list Event) (msg : Msg),
    (List.length acts <= 1)%nat /\
    forallb is_tc_action acts = true /\
    (events (TCHandler tx_ok tc s)
       = acts ++ [EvLog LOG_NOMINAL msg; EvZephyrLogFine msg] \/
     events (TCHandler tx_ok tc s)
       = acts ++ [EvLog LOG_ERROR msg; EvZephyrLogWarn msg]).
Proof.
  destruct tc; tc_run; tc_cases s tx_ok;
    first
      [ exists []; eexists; split; [| split]; cycle 2;
        [ solve [left; reflexivity | right; reflexivity]
        | simpl; lia | reflexivity ]
      | eexists [_]; eexists; split; [| split]; cycle 2;
        [ solve [left; reflexivity | right; reflexivity]
        | simpl; lia | reflexivity ] ].
Qed.

(** X5.  The three configuration commands without a guard: [DEPLOYv],
    [RETRACTv] and [RATSDATAPROCTYPE] write the received value to the EEPROM
    configuration in every sub-state and also while a motion is ongoing,
    report at fine level, and leave the object as it was. *)
Theorem config_writes_unguarded (tx_ok : bool) (s : StratoRATS) :
  (filter is_config_write (events (TCHandler tx_ok DEPLOYv s))
     = [EvWrite_deploy_velocity (deployVel (mcbParam s))] /\
   filter is_config_write (events (TCHandler tx_ok RETRACTv s))
     = [EvWrite_retract_velocity (retractVel (mcbParam s))] /\
   filter is_config_write (events (TCHandler tx_ok RATSDATAPROCTYPE s))
     = [EvWrite_data_proc_method (data_proc_method (ratsParam s))]) /\
  (exists m1 m2 m3,
     filter is_summary_tm (events (TCHandler tx_ok DEPLOYv s))
       = [EvZephyrLogFine m1] /\
     filter is_summary_tm (events (TCHandler tx_ok RETRACTv s))
       = [EvZephyrLogFine m2] /\
     filter is_summary_tm (events (TCHandler tx_ok RATSDATAPROCTYPE s))
       = [EvZephyrLogFine m3]) /\
  state_of (TCHandler tx_ok DEPLOYv s) = s /\
  state_of (TCHandler tx_ok RETRACTv s) = s /\
  state_of (TCHandler tx_ok RATSDATAPROCTYPE s) = s.
Proof.
  tc_run. repeat split. do 3 eexists. repeat split.
Qed.

(** X6.  [CANCELMOTION] has no guard: in every sub-state, with or without a
    motion, it sends [MCB_CANCEL_MOTION] first and raises
    [ACTION_MOTION_STOP], so the flag is up when the state machine next
    runs its switch. *)
Theorem cancel_motion_unconditional (tx_ok : bool) (s : StratoRATS) :
  events (TCHandler tx_ok CANCELMOTION s)
    = [EvTX_ASCII MCB_CANCEL_MOTION;
       EvLog LOG_NOMINAL [Txt "TC Cancel Motion"];
       EvZephyrLogFine [Txt "TC Cancel Motion"]] /\
  state_of (TCHandler tx_ok CANCELMOTION s) = with_flag ACTION_MOTION_STOP s /\
  flag_value
    (action_flags (before_switch (state_of (TCHandler tx_ok CANCELMOTION s)))
       ACTION_MOTION_STOP) = true.
Proof.
  repeat split.
  unfold before_switch, statusMsgCheck, CheckAction. tc_run.
  unfold upd; simpl.
  destruct (flag_value (action_flags s ACTION_SEND_STATUS)); reflexivity.
Qed.

End TCHandlerAll.

(** ** The flight state machine, all sub-states *)

Section FlightAll.
Context {X : Externals}.

Ltac flag_cases a :=
  repeat match goal with
  | |- context [ScheduleAction_eq_dec a ?b] =>
      destruct (ScheduleAction_eq_dec a b)
  end.

(** One tick in a warmup sub-state: the sub-state stays or moves one on,
    and the motion kind is not written. *)
Lemma warmup_tick_substate (s : StratoRATS) :
  FL_ENTRY <= inst_substate s <= FL_LORA_WAIT2 ->
  (inst_substate (state_of (FlightMode s)) = inst_substate s \/
   inst_substate (state_of (FlightMode s)) = inst_substate s + 1) /\
  mcb_motion (state_of (FlightMode s)) = mcb_motion s.
Proof.
  intros Hr.
  assert (Hc : inst_substate s = FL_ENTRY \/ inst_substate s = FL_GPS_WAIT \/
               inst_substate s = FL_LORA_WAIT1 \/
               inst_substate s = FL_CONFIG_ECU \/
               inst_substate s = FL_LORA_WAIT2).
  { flight_consts. lia. }
  clear Hr.
  destruct Hc as [H | [H | [H | [H | H]]]];
    enter_switch s H;
    repeat match goal with
    | |- context [if ?c then _ else _] => destruct c
    end; simpl;
    (split; [first [right; lia | left; lia] | reflexivity]).
Qed.

(** X7.  A tick in one of the five warmup sub-states ([FL_ENTRY] to
    [FL_LORA_WAIT2]), whatever the flags, counters and time: the sub-state
    stays or moves to the next one; the LoRa count stays or is reset to 0;
    no flag is raised, and the only flags that can be cleared are
    [ACTION_SEND_STATUS], [ACTION_GPS_WAIT_MSG] and [ACTION_LORA_WAIT_MSG]
    (reel, telemetry and motion-stop flags raised during warmup are not
    looked at); the motion context, the lengths, the time flag and the total
    LoRa count are unchanged. *)
Theorem warmup_tick_frame (s : StratoRATS)
  (Hwarm : FL_ENTRY <= inst_substate s <= FL_LORA_WAIT2) :
  (inst_substate (state_of (FlightMode s)) = inst_substate s \/
   inst_substate (state_of (FlightMode s)) = inst_substate s + 1) /\
  (lora_count (state_of (FlightMode s)) = lora_count s \/
   lora_count (state_of (FlightMode s)) = 0) /\
  (forall a,
     action_flags (state_of (FlightMode s)) a = action_flags s a \/
     (flag_value (action_flags (state_of (FlightMode s)) a) = false /\
      (a = ACTION_SEND_STATUS \/ a = ACTION_GPS_WAIT_MSG \/
       a = ACTION_LORA_WAIT_MSG))) /\
  (time_valid (state_of (FlightMode s)),
   mcbParam (state_of (FlightMode s)),
   ratsParam (state_of (FlightMode s)),
   total_lora_count (state_of (FlightMode s)),
   deploy_length (state_of (FlightMode s)),
   retract_length (state_of (FlightMode s)),
   mcb_motion_ongoing (state_of (FlightMode s)),
   mcb_motion (state_of (FlightMode s)))
    = (time_valid s, mcbParam s, ratsParam s, total_lora_count s,
       deploy_length s, retract_length s, mcb_motion_ongoing s,
       mcb_motion s).
Proof.
  revert Hwarm.
  intros Hr.
  assert (Hc : inst_substate s = FL_ENTRY \/ inst_substate s = FL_GPS_WAIT \/
               inst_substate s = FL_LORA_WAIT1 \/
               inst_substate s = FL_CONFIG_ECU \/
               inst_substate s = FL_LORA_WAIT2).
  { flight_consts. lia. }
  clear Hr.
  destruct Hc as [H | [H | [H | [H | H]]]].
  - enter_switch s H;
      (split; [right; lia |]); (split; [left; reflexivity |]);
      (split; [| reflexivity]); intros a; flag_cases a; auto.
  - enter_switch s H;
      destruct (flag_value (action_flags s ACTION_GPS_WAIT_MSG)); simpl;
      destruct (time_valid s) eqn:Etv; simpl;
      (split; [first [right; lia | left; lia] |]);
      (split; [first [left; reflexivity | right; reflexivity] |]);
      (split; [| rewrite ?Etv; reflexivity]); intros a; flag_cases a; auto.
  - enter_switch s H;
      destruct (flag_value (action_flags s ACTION_LORA_WAIT_MSG)); simpl;
      try destruct (lora_count s >=? LORA_MSG_COUNT); simpl;
      (split; [first [right; lia | left; lia] |]);
      (split; [left; reflexivity |]);
      (split; [| reflexivity]); intros a; flag_cases a; auto.
  - enter_switch s H;
      (split; [right; lia |]); (split; [right; reflexivity |]);
      (split; [| reflexivity]); intros a; flag_cases a; auto.
  - enter_switch s H;
      destruct (flag_value (action_flags s ACTION_LORA_WAIT_MSG)); simpl;
      try destruct (lora_count s >=? LORA_MSG_COUNT); simpl;
      (split; [first [right; lia | left; lia] |]);
      (split; [left; reflexivity |]);
      (split; [| reflexivity]); intros a; flag_cases a; auto.
Qed.

(** X8.  A tick in [FL_GPS_WAIT].  The machine leaves for [FL_LORA_WAIT1]
    exactly when [time_valid] is set, and then resets the LoRa count and
    schedules [ACTION_LORA_WAIT_MSG] 1 s ahead; a raised
    [ACTION_GPS_WAIT_MSG] is consumed and re-armed 5 s ahead, also on the
    tick that leaves. *)
Theorem gps_wait_tick (s : StratoRATS)
  (Hsub : inst_substate s = FL_GPS_WAIT) :
  inst_substate (state_of (FlightMode s))
    = (if time_valid s then FL_LORA_WAIT1 else FL_GPS_WAIT) /\
  lora_count (state_of (FlightMode s))
    = (if time_valid s then 0 else lora_count s) /\
  flag_value (action_flags (state_of (FlightMode s)) ACTION_GPS_WAIT_MSG)
    = false /\
  events (FlightMode s)
    = events (statusMsgCheck STATUS_MSG_PERIOD_SECS s)
      ++ (if flag_value (action_flags s ACTION_GPS_WAIT_MSG)
          then [EvLog LOG_NOMINAL [Txt "FL_GPS_WAIT waiting for GPS Time"];
                EvAddAction ACTION_GPS_WAIT_MSG 5]
          else [])
      ++ (if time_valid s
          then [EvAddAction ACTION_LORA_WAIT_MSG 1;
                EvLog LOG_NOMINAL [Txt "Entering FL_LORA_WAIT1"]]
          else []).
Proof.
  enter_switch s Hsub;
    destruct (flag_value (action_flags s ACTION_GPS_WAIT_MSG)) eqn:Eg; simpl;
    destruct (time_valid s); simpl; rewrite ?Eg; repeat split;
    exact Hsub.
Qed.

(** X9.  A tick in [FL_LORA_WAIT1] or [FL_LORA_WAIT2].  Without a raised
    [ACTION_LORA_WAIT_MSG] nothing happens at all.  With it, the flag is
    consumed and re-armed 1 s ahead exactly once, also on the tick that
    passes the gate; the machine moves on exactly when the LoRa count has
    reached [LORA_MSG_COUNT], and only the move out of [FL_LORA_WAIT2]
    schedules [ACTION_START_TELEMETRY].  The count is not reset by the
    test. *)
Theorem lora_wait_tick (s : StratoRATS)
  (Hsub : inst_substate s = FL_LORA_WAIT1 \/ inst_substate s = FL_LORA_WAIT2) :
  inst_substate (state_of (FlightMode s))
    = (if flag_value (action_flags s ACTION_LORA_WAIT_MSG)
          && (lora_count s >=? LORA_MSG_COUNT)
       then inst_substate s + 1 else inst_substate s) /\
  lora_count (state_of (FlightMode s)) = lora_count s /\
  events (FlightMode s)
    = events (statusMsgCheck STATUS_MSG_PERIOD_SECS s)
      ++ (if flag_value (action_flags s ACTION_LORA_WAIT_MSG)
          then
            [EvLog LOG_NOMINAL [Txt "FL_LORA_WAIT waiting for LoRa message"];
             EvAddAction ACTION_LORA_WAIT_MSG 1]
            ++ (if lora_count s >=? LORA_MSG_COUNT
                then
                  [EvLog LOG_NOMINAL
                     [Txt "FL_LORA_WAIT LoRa messages received"]]
                  ++ (if inst_substate s =? FL_LORA_WAIT1
                      then [EvLog LOG_NOMINAL [Txt "Entering FL_CONFIG_ECU"]]
                      else [EvAddAction ACTION_START_TELEMETRY 0;
                            EvLog LOG_NOMINAL [Txt "Entering FL_MEASURE"]])
                else [])
          else []) /\
  (if flag_value (action_flags s ACTION_LORA_WAIT_MSG)
   then True else state_of (FlightMode s) = before_switch s).
Proof.
  destruct Hsub as [H | H];
    enter_switch s H;
    destruct (flag_value (action_flags s ACTION_LORA_WAIT_MSG)); simpl;
    try destruct (lora_count s >=? LORA_MSG_COUNT); simpl;
    repeat split; try lia; try (rewrite H; lia).
Qed.

(** X10.  Starting a motion from [FL_MEASURE].  With
    [ACTION_START_TELEMETRY] not raised and a reel flag raised, the chosen
    flag ([ACTION_REEL_OUT] if raised, else [ACTION_REEL_IN]) is consumed,
    [mcb_motion] is set to the matching kind before the motion sub-machine
    is started with [restart = true], and afterwards the sub-state is set to
    [FLM_MANUAL_MOTION] whatever the sub-machine returned or wrote into
    [inst_substate]. *)
Theorem measure_starts_motion (s : StratoRATS)
  (Hsub : inst_substate s = FL_MEASURE)
  (Hstart : flag_value (action_flags s ACTION_START_TELEMETRY) = false)
  (Hreel : flag_value (action_flags s ACTION_REEL_OUT)
           || flag_value (action_flags s ACTION_REEL_IN) = true) :
  state_of (FlightMode s)
    = set_inst_substate FLM_MANUAL_MOTION
        (state_of
           (Flight_ManualMotion true
              (if flag_value (action_flags s ACTION_REEL_OUT)
               then set_mcb_motion MOTION_REEL_OUT
                      (consumed ACTION_REEL_OUT (before_switch s))
               else set_mcb_motion MOTION_REEL_IN
                      (consumed ACTION_REEL_IN (before_switch s))))) /\
  inst_substate (state_of (FlightMode s)) = FLM_MANUAL_MOTION /\
  events (FlightMode s)
    = events (statusMsgCheck STATUS_MSG_PERIOD_SECS s)
      ++ [EvLog LOG_NOMINAL
            [Txt (if flag_value (action_flags s ACTION_REEL_OUT)
                  then "Reel out manual command"
                  else "Reel in manual command")]]
      ++ events
           (Flight_ManualMotion true
              (if flag_value (action_flags s ACTION_REEL_OUT)
               then set_mcb_motion MOTION_REEL_OUT
                      (consumed ACTION_REEL_OUT (before_switch s))
               else set_mcb_motion MOTION_REEL_IN
                      (consumed ACTION_REEL_IN (before_switch s))))
      ++ [EvLog LOG_NOMINAL [Txt "Entering FLM_MANUAL_MOTION"];
          EvLog LOG_DEBUG [Txt "FL Measure"]].
Proof.
  unfold consumed.
  enter_switch s Hsub; rewrite Hstart; simpl;
    destruct (flag_value (action_flags s ACTION_REEL_OUT)); simpl in *;
    try rewrite Hreel; simpl;
    match goal with
    | |- context [Flight_ManualMotion true ?st] =>
        destruct (Flight_ManualMotion true st) as [[d s'] ev]
    end; simpl; rewrite <- ?app_assoc; repeat split.
Qed.

(** X11.  Polling a motion from [FLM_MANUAL_MOTION]: the motion sub-machine
    is called with [restart = false]; when it returns [true] the sub-state
    is set to [FLM_IDLE]; when it returns [false] the tick adds nothing, so
    a sub-state the sub-machine wrote itself (such as [FL_ERROR]) is the one
    in force at the next tick. *)
Theorem manual_motion_poll (s : StratoRATS)
  (Hlabels : NoDup flight_labels)
  (Hsub : inst_substate s = FLM_MANUAL_MOTION) :
  state_of (FlightMode s)
    = (if result (Flight_ManualMotion false (before_switch s))
       then set_inst_substate FLM_IDLE
              (state_of (Flight_ManualMotion false (before_switch s)))
       else state_of (Flight_ManualMotion false (before_switch s))) /\
  events (FlightMode s)
    = events (statusMsgCheck STATUS_MSG_PERIOD_SECS s)
      ++ events (Flight_ManualMotion false (before_switch s))
      ++ (if result (Flight_ManualMotion false (before_switch s))
          then [EvLog LOG_NOMINAL [Txt "Entering FLM_IDLE"]] else []).
Proof.
  destruct (manual_labels_free Hlabels) as [[? [? ?]] [? [? ?]]].
  enter_switch s Hsub;
    match goal with
    | |- context [Flight_ManualMotion false ?st] =>
        destruct (Flight_ManualMotion false st) as [[d s'] ev]
    end; simpl; destruct d; simpl; rewrite ?app_nil_r; repeat split.
Qed.

(** X12.  Starting a motion from [FLM_IDLE]: as from [FL_MEASURE], but the
    flags are tested in the other order ([ACTION_REEL_IN] first) and
    [ACTION_START_TELEMETRY] is not looked at. *)
Theorem idle_starts_motion (s : StratoRATS)
  (Hlabels : NoDup flight_labels)
  (Hsub : inst_substate s = FLM_IDLE)
  (Hreel : flag_value (action_flags s ACTION_REEL_IN)
           || flag_value (action_flags s ACTION_REEL_OUT) = true) :
  state_of (FlightMode s)
    = set_inst_substate FLM_MANUAL_MOTION
        (state_of
           (Flight_ManualMotion true
              (if flag_value (action_flags s ACTION_REEL_IN)
               then set_mcb_motion MOTION_REEL_IN
                      (consumed ACTION_REEL_IN (before_switch s))
               else set_mcb_motion MOTION_REEL_OUT
                      (consumed ACTION_REEL_OUT (before_switch s))))) /\
  events (FlightMode s)
    = events (statusMsgCheck STATUS_MSG_PERIOD_SECS s)
      ++ [EvLog LOG_DEBUG [Txt "FL Manual Idle"];
          EvLog LOG_NOMINAL
            [Txt (if flag_value (action_flags s ACTION_REEL_IN)
                  then "Reel in manual command"
                  else "Reel out manual command")]]
      ++ events
           (Flight_ManualMotion true
              (if flag_value (action_flags s ACTION_REEL_IN)
               then set_mcb_motion MOTION_REEL_IN
                      (consumed ACTION_REEL_IN (before_switch s))
               else set_mcb_motion MOTION_REEL_OUT
                      (consumed ACTION_REEL_OUT (before_switch s))))
      ++ [EvLog LOG_NOMINAL [Txt "Entering FLM_MANUAL_MOTION"]].
Proof.
  destruct (manual_labels_free Hlabels) as [[? [? ?]] [? [? ?]]].
  unfold consumed.
  enter_switch s Hsub;
    destruct (flag_value (action_flags s ACTION_REEL_IN)); simpl in *;
    try rewrite Hreel; simpl;
    match goal with
    | |- context [Flight_ManualMotion true ?st] =>
        destruct (Flight_ManualMotion true st) as [[d s'] ev]
    end; simpl; rewrite <- ?app_assoc; repeat split.
Qed.


(** Distinct case labels, as plain inequalities. *)
Lemma fixed_labels_free (Hlabels : NoDup flight_labels) :
  (forall k, 0 <= k <= 8 -> MODE_ERROR <> MODE_ENTRY + k) /\
  (forall k, 0 <= k <= 8 -> MODE_SHUTDOWN <> MODE_ENTRY + k) /\
  (forall k, 0 <= k <= 8 -> MODE_EXIT <> MODE_ENTRY + k) /\
  MODE_ERROR <> MODE_SHUTDOWN /\ MODE_ERROR <> MODE_EXIT /\
  MODE_SHUTDOWN <> MODE_EXIT.
Proof.
  unfold flight_labels in Hlabels. flight_consts.
  repeat match goal with
  | H : NoDup (_ :: _) |- _ =>
      apply NoDup_cons_iff in H; destruct H as [? H]
  end.
  simpl in *.
  repeat split; try (intros k Hk); lia.
Qed.

(** X13.  The three fixed sub-states [FL_ERROR], [FL_SHUTDOWN] and
    [FL_EXIT]: every tick spent there calls [RATS_Shutdown] once and writes
    one log line; the state machine itself assigns nothing, so the sub-state
    after the tick is the one [RATS_Shutdown] leaves. *)
Theorem fixed_substates_tick (s : StratoRATS)
  (Hlabels : NoDup flight_labels)
  (Hsub : inst_substate s = FL_ERROR \/ inst_substate s = FL_SHUTDOWN \/
          inst_substate s = FL_EXIT) :
  state_of (FlightMode s) = state_of (RATS_Shutdown (before_switch s)) /\
  events (FlightMode s)
    = events (statusMsgCheck STATUS_MSG_PERIOD_SECS s)
      ++ events (RATS_Shutdown (before_switch s))
      ++ [if inst_substate s =? FL_ERROR
          then EvLog LOG_DEBUG [Txt "In Error Sub State"]
          else if inst_substate s =? FL_SHUTDOWN
          then EvLog LOG_NOMINAL [Txt "Shutdown warning received in FL"]
          else EvLog LOG_NOMINAL [Txt "Exiting FL"]].
Proof.
  destruct (fixed_labels_free Hlabels) as [He [Hs [Hx [? [? ?]]]]].
  pose proof (He 0); pose proof (He 1); pose proof (He 2); pose proof (He 3);
    pose proof (He 4); pose proof (He 5); pose proof (He 6).
  pose proof (Hs 0); pose proof (Hs 1); pose proof (Hs 2); pose proof (Hs 3);
    pose proof (Hs 4); pose proof (Hs 5); pose proof (Hs 6).
  pose proof (Hx 0); pose proof (Hx 1); pose proof (Hx 2); pose proof (Hx 3);
    pose proof (Hx 4); pose proof (Hx 5); pose proof (Hx 6).
  clear He Hs Hx.
  destruct Hsub as [E | [E | E]];
    enter_switch s E;
    match goal with
    | |- context [RATS_Shutdown ?st] =>
        destruct (RATS_Shutdown st) as [[u s'] ev]
    end; simpl; split; reflexivity.
Qed.

(** X14.  A sub-state that is none of the twelve enumerators: the tick
    writes the error line "Unknown manual substate" and changes nothing; the
    machine stays where it is. *)
Theorem unknown_substate_tick (s : StratoRATS)
  (Hunknown : ~ In (inst_substate s) flight_labels) :
  state_of (FlightMode s) = before_switch s /\
  inst_substate (state_of (FlightMode s)) = inst_substate s /\
  events (FlightMode s)
    = events (statusMsgCheck STATUS_MSG_PERIOD_SECS s)
      ++ [EvLog LOG_ERROR [Txt "Unknown manual substate"]].
Proof.
  unfold flight_labels in Hunknown. flight_consts. simpl in Hunknown.
  unfold before_switch, FlightMode, ManualFlight, statusMsgCheck, CheckAction.
  monad_unfold.
  destruct (flag_value (action_flags s ACTION_SEND_STATUS));
    simpl; flight_consts; repeat (eqb_lia; simpl); repeat split.
Qed.

(** X15.  The telemetry detour keeps pending reel commands.  From
    [FL_MEASURE] with [ACTION_START_TELEMETRY] raised, two ticks in a row
    lead through [FL_SEND_TELEMETRY] back to [FL_MEASURE]; the second tick
    schedules [ACTION_START_TELEMETRY] 60 s ahead; both reel flags and
    [mcb_motion] are after the two ticks what they were before. *)
Theorem telemetry_detour (s : StratoRATS)
  (Hsub : inst_substate s = FL_MEASURE)
  (Hstart : flag_value (action_flags s ACTION_START_TELEMETRY) = true) :
  inst_substate (state_of (FlightMode s)) = FL_SEND_TELEMETRY /\
  inst_substate (state_of (FlightMode (state_of (FlightMode s))))
    = FL_MEASURE /\
  events (FlightMode (state_of (FlightMode s)))
    = [EvAddAction ACTION_START_TELEMETRY 60;
       EvLog LOG_NOMINAL [Txt "Entering FL_MEASURE"]] /\
  action_flags (state_of (FlightMode (state_of (FlightMode s))))
      ACTION_REEL_OUT
    = action_flags s ACTION_REEL_OUT /\
  action_flags (state_of (FlightMode (state_of (FlightMode s))))
      ACTION_REEL_IN
    = action_flags s ACTION_REEL_IN /\
  flag_value
    (action_flags (state_of (FlightMode (state_of (FlightMode s))))
       ACTION_START_TELEMETRY) = false /\
  mcb_motion (state_of (FlightMode (state_of (FlightMode s))))
    = mcb_motion s.
Proof.
  unfold FlightMode, ManualFlight, statusMsgCheck, CheckAction.
  monad_unfold.
  destruct (flag_value (action_flags s ACTION_SEND_STATUS)) eqn:Es;
    simpl; flight_consts;
    do 4 (rewrite ?Hsub, ?Es, ?Hstart; eqb_lia; unfold upd; simpl);
    repeat split.
Qed.

End FlightAll.

(** ** Runs of the loop under arbitrary inputs *)

Section RunsAll.
Context {X : Externals}.

Lemma loop_warmup_step (i : LoopInput) (s : StratoRATS) :
  FL_ENTRY <= inst_substate s <= FL_LORA_WAIT2 ->
  inst_substate (state_of (loop i s)) = inst_substate s \/
  inst_substate (state_of (loop i s)) = inst_substate s + 1.
Proof.
  intros Hw.
  destruct (delivered_frame i s) as [Dsub _].
  destruct (loop_delivered i s) as [Lst _].
  rewrite Lst. rewrite <- Dsub in Hw |- *.
  exact (proj1 (warmup_tick_substate _ Hw)).
Qed.

(** X17.  Warmup never goes back, whatever arrives.  For every stream of
    inputs (LoRa messages or none, any deadlines fired), a machine that
    starts in a warmup sub-state is, after [n] passes of the loop, either
    still in warmup, at a sub-state not before the one it started in and at
    most [n] steps after it, or it has been in [FL_MEASURE] at some pass up
    to [n]. *)
Theorem warmup_never_regresses
  (ins : nat -> LoopInput) (n k : nat) (s : StratoRATS)
  (Hwarm : FL_ENTRY <= inst_substate s <= FL_LORA_WAIT2) :
  (inst_substate s <= inst_substate (run_from ins k n s) <= FL_LORA_WAIT2 /\
   inst_substate (run_from ins k n s) <= inst_substate s + Z.of_nat n) \/
  (exists j, (j <= n)%nat /\
     inst_substate (run_from ins k j s) = FL_MEASURE).
Proof.
  revert k s Hwarm. induction n as [| n IH]; intros k s Hwarm.
  - left. simpl. lia.
  - destruct (loop_warmup_step (ins k) s Hwarm) as [Hs | Hs].
    + destruct (IH (S k) (state_of (loop (ins k) s))) as [[Hb Hc] | [j [Hj Hm]]].
      * rewrite Hs. exact Hwarm.
      * left. simpl. rewrite Hs in Hb, Hc. lia.
      * right. exists (S j). split; [lia | exact Hm].
    + destruct (Z.eq_dec (inst_substate s) FL_LORA_WAIT2) as [He | Hne].
      * right. exists 1%nat. split; [lia |]. simpl. rewrite Hs, He.
        flight_consts. lia.
      * destruct (IH (S k) (state_of (loop (ins k) s)))
          as [[Hb Hc] | [j [Hj Hm]]].
        -- rewrite Hs. flight_consts. lia.
        -- left. simpl. rewrite Hs in Hb, Hc. lia.
        -- right. exists (S j). split; [lia | exact Hm].
Qed.

Lemma loop_lora_wait_silent (i : LoopInput) (s : StratoRATS) :
  inst_substate s = FL_LORA_WAIT1 \/ inst_substate s = FL_LORA_WAIT2 ->
  lora_count s < LORA_MSG_COUNT ->
  lora_rx i = false ->
  inst_substate (state_of (loop i s)) = inst_substate s /\
  lora_count (state_of (loop i s)) = lora_count s.
Proof.
  intros Hsub Hc Hrx.
  destruct (delivered_frame i s) as [Dsub [_ [Dcnt _]]].
  destruct (loop_delivered i s) as [Lst _].
  rewrite Hrx in Dcnt. rewrite Lst.
  assert (G : (lora_count (delivered i s) >=? LORA_MSG_COUNT) = false).
  { rewrite Dcnt, Z.geb_leb. apply Z.leb_gt. exact Hc. }
  destruct Hsub as [H | H]; rewrite <- Dsub in H.
  - destruct (tick_lora_wait1 _ H) as [Ec [Es _]].
    rewrite Ec, Es, G, andb_false_r, Dcnt. rewrite <- Dsub, H. auto.
  - destruct (tick_lora_wait2 _ H) as [Ec [Es _]].
    rewrite Ec, Es, G, andb_false_r, Dcnt. rewrite <- Dsub, H. auto.
Qed.

(** X18.  The LoRa wait has no timeout.  In [FL_LORA_WAIT1] or
    [FL_LORA_WAIT2] with fewer than [LORA_MSG_COUNT] messages counted, if no
    LoRa message arrives the machine is in the same sub-state with the same
    count after any number of passes, however often
    [ACTION_LORA_WAIT_MSG] or any other deadline fires:
    [LORA_WARMUP_MSG_TIMEOUT] is not consulted. *)
Theorem lora_wait_never_times_out
  (ins : nat -> LoopInput) (n k : nat) (s : StratoRATS)
  (Hsub : inst_substate s = FL_LORA_WAIT1 \/ inst_substate s = FL_LORA_WAIT2)
  (Hcount : lora_count s < LORA_MSG_COUNT)
  (Hsilent : forall j, lora_rx (ins j) = false) :
  inst_substate (run_from ins k n s) = inst_substate s /\
  lora_count (run_from ins k n s) = lora_count s.
Proof.
  revert k s Hsub Hcount. induction n as [| n IH]; intros k s Hsub Hcount.
  - split; reflexivity.
  - destruct (loop_lora_wait_silent (ins k) s Hsub Hcount (Hsilent k))
      as [Es Ec].
    destruct (IH (S k) (state_of (loop (ins k) s))) as [Is Ic].
    + rewrite Es. exact Hsub.
    + rewrite Ec. exact Hcount.
    + simpl. rewrite Is, Ic. auto.
Qed.

End RunsAll.

Section Armed.
Context {X : Externals}.

Ltac open_helpers Hmotion Hshutdown d :=
  repeat match goal with
  | |- context [Flight_ManualMotion ?b ?st] =>
      let Hm := fresh "Hm" in
      pose proof (Hmotion b st d) as Hm;
      destruct (Flight_ManualMotion b st) as [[? ?] ?]; simpl in Hm
  | |- context [RATS_Shutdown ?st] =>
      let Hm := fresh "Hm" in
      pose proof (Hshutdown st d) as Hm;
      destruct (RATS_Shutdown st) as [[? ?] ?]; simpl in Hm
  end.

Ltac in_cases :=
  let Hin := fresh "Hin" in
  intros Hin;
  repeat (rewrite in_app_iff in Hin); simpl in Hin;
  repeat match goal with
  | H : _ \/ _ |- _ => destruct H
  | H : False |- _ => destruct H
  | H : EvAddAction _ _ = EvAddAction _ _ |- _ =>
      first [discriminate H | inversion H; clear H; subst]
  | H : _ = EvAddAction _ _ |- _ => discriminate H
  end;
  try contradiction.

(** X19.  Where the telemetry cycle is armed.  Provided the motion
    sub-machine and [RATS_Shutdown] do not schedule it themselves, a tick
    schedules [ACTION_START_TELEMETRY] in two places only: on leaving
    [FL_LORA_WAIT2] (delay 0 s) and on leaving [FL_SEND_TELEMETRY]
    (delay 60 s); in both the sub-state after the tick is [FL_MEASURE].  No
    tick in a manual sub-state, in warmup before the last gate, or in a
    fixed sub-state arms it. *)
Theorem start_telemetry_armed_only (s : StratoRATS) (d : Z)
  (Hmotion : forall b,
     never_schedules ACTION_START_TELEMETRY (Flight_ManualMotion b))
  (Hshutdown : never_schedules ACTION_START_TELEMETRY RATS_Shutdown)
  (Harmed : In (EvAddAction ACTION_START_TELEMETRY d) (events (FlightMode s))) :
  (inst_substate s = FL_LORA_WAIT2 /\ d = 0 \/
   inst_substate s = FL_SEND_TELEMETRY /\ d = 60) /\
  inst_substate (state_of (FlightMode s)) = FL_MEASURE.
Proof.
  revert Harmed. unfold never_schedules in *.
  unfold FlightMode, ManualFlight, statusMsgCheck, CheckAction.
  monad_unfold. flight_consts.
  destruct (flag_value (action_flags s ACTION_SEND_STATUS)); simpl;
  (destruct (Z.eq_dec (inst_substate s) MODE_ENTRY) as [E | N0];
   [| destruct (Z.eq_dec (inst_substate s) (MODE_ENTRY + 1)) as [E | N1];
   [| destruct (Z.eq_dec (inst_substate s) (MODE_ENTRY + 2)) as [E | N2];
   [| destruct (Z.eq_dec (inst_substate s) (MODE_ENTRY + 3)) as [E | N3];
   [| destruct (Z.eq_dec (inst_substate s) (MODE_ENTRY + 4)) as [E | N4];
   [| destruct (Z.eq_dec (inst_substate s) (MODE_ENTRY + 5)) as [E | N5];
   [| destruct (Z.eq_dec (inst_substate s) (MODE_ENTRY + 6)) as [E | N6];
   [| destruct (Z.eq_dec (inst_substate s) MODE_ERROR) as [E | N7];
   [| destruct (Z.eq_dec (inst_substate s) MODE_SHUTDOWN) as [E | N8];
   [| destruct (Z.eq_dec (inst_substate s) MODE_EXIT) as [E | N9];
   [| destruct (Z.eq_dec (inst_substate s) (MODE_ENTRY + 7)) as [E | N10];
   [| destruct (Z.eq_dec (inst_substate s) (MODE_ENTRY + 8)) as [E | N11]
   ]]]]]]]]]]]);
  do 3 (eqb_lia; unfold upd; simpl);
  repeat match goal with
  | |- context [if ?c then _ else _] =>
      lazymatch c with
      | context [Flight_ManualMotion] => fail
      | context [RATS_Shutdown] => fail
      | _ => destruct c eqn:?
      end
  end; simpl;
  open_helpers Hmotion Hshutdown d; simpl;
  repeat match goal with
  | |- context [if ?c then _ else _] => destruct c eqn:?
  end; simpl;
  in_cases; auto.
Qed.

End Armed.

(** ** The further properties at the sample instrument *)

#[local] Existing Instance sample.

Lemma sample_unknown_100 : ~ In (inst_substate (object_at 100)) flight_labels.
Proof. simpl. intuition discriminate. Qed.

Lemma sample_motion_never_arms :
  forall b, never_schedules ACTION_START_TELEMETRY (Flight_ManualMotion b).
Proof.
  intros b s d. destruct b; simpl; [tauto |].
  unfold CheckAction. destruct (flag_value (action_flags s ACTION_MOTION_STOP));
    simpl; tauto.
Qed.

Lemma sample_shutdown_never_arms :
  never_schedules ACTION_START_TELEMETRY RATS_Shutdown.
Proof. intros s d. simpl. tauto. Qed.

Lemma warmup_tick_frame_witness :
  (FL_ENTRY <= inst_substate wait1_flagged <= FL_LORA_WAIT2) /\
  ((inst_substate (state_of (FlightMode wait1_flagged)) = inst_substate wait1_flagged \/
   inst_substate (state_of (FlightMode wait1_flagged)) = inst_substate wait1_flagged + 1) /\
  (lora_count (state_of (FlightMode wait1_flagged)) = lora_count wait1_flagged \/
   lora_count (state_of (FlightMode wait1_flagged)) = 0) /\
  (forall a,
     action_flags (state_of (FlightMode wait1_flagged)) a = action_flags wait1_flagged a \/
     (flag_value (action_flags (state_of (FlightMode wait1_flagged)) a) = false /\
      (a = ACTION_SEND_STATUS \/ a = ACTION_GPS_WAIT_MSG \/
       a = ACTION_LORA_WAIT_MSG))) /\
  (time_valid (state_of (FlightMode wait1_flagged)),
   mcbParam (state_of (FlightMode wait1_flagged)),
   ratsParam (state_of (FlightMode wait1_flagged)),
   total_lora_count (state_of (FlightMode wait1_flagged)),
   deploy_length (state_of (FlightMode wait1_flagged)),
   retract_length (state_of (FlightMode wait1_flagged)),
   mcb_motion_ongoing (state_of (FlightMode wait1_flagged)),
   mcb_motion (state_of (FlightMode wait1_flagged)))
    = (time_valid wait1_flagged, mcbParam wait1_flagged, ratsParam wait1_flagged, total_lora_count wait1_flagged,
       deploy_length wait1_flagged, retract_length wait1_flagged, mcb_motion_ongoing wait1_flagged,
       mcb_motion wait1_flagged)).
Proof.
  split; [unfold FL_ENTRY, FL_LORA_WAIT2, FL_SEND_TELEMETRY; simpl; lia |].
  apply (warmup_tick_frame wait1_flagged).
  - unfold FL_ENTRY, FL_LORA_WAIT2, FL_SEND_TELEMETRY; simpl; lia.
Defined.

Lemma gps_wait_tick_witness :
  (inst_substate gps_flagged = FL_GPS_WAIT) /\
  (inst_substate (state_of (FlightMode gps_flagged))
    = (if time_valid gps_flagged then FL_LORA_WAIT1 else FL_GPS_WAIT) /\
  lora_count (state_of (FlightMode gps_flagged))
    = (if time_valid gps_flagged then 0 else lora_count gps_flagged) /\
  flag_value (action_flags (state_of (FlightMode gps_flagged)) ACTION_GPS_WAIT_MSG)
    = false /\
  events (FlightMode gps_flagged)
    = events (statusMsgCheck STATUS_MSG_PERIOD_SECS gps_flagged)
      ++ (if flag_value (action_flags gps_flagged ACTION_GPS_WAIT_MSG)
          then [EvLog LOG_NOMINAL [Txt "FL_GPS_WAIT waiting for GPS Time"];
                EvAddAction ACTION_GPS_WAIT_MSG 5]
          else [])
      ++ (if time_valid gps_flagged
          then [EvAddAction ACTION_LORA_WAIT_MSG 1;
                EvLog LOG_NOMINAL [Txt "Entering FL_LORA_WAIT1"]]
          else [])).
Proof.
  split; [reflexivity |].
  apply (gps_wait_tick gps_flagged).
  - reflexivity.
Defined.

Lemma lora_wait_tick_witness :
  (inst_substate wait2_flagged = FL_LORA_WAIT1 \/ inst_substate wait2_flagged = FL_LORA_WAIT2) /\
  (inst_substate (state_of (FlightMode wait2_flagged))
    = (if flag_value (action_flags wait2_flagged ACTION_LORA_WAIT_MSG)
          && (lora_count wait2_flagged >=? LORA_MSG_COUNT)
       then inst_substate wait2_flagged + 1 else inst_substate wait2_flagged) /\
  lora_count (state_of (FlightMode wait2_flagged)) = lora_count wait2_flagged /\
  events (FlightMode wait2_flagged)
    = events (statusMsgCheck STATUS_MSG_PERIOD_SECS wait2_flagged)
      ++ (if flag_value (action_flags wait2_flagged ACTION_LORA_WAIT_MSG)
          then
            [EvLog LOG_NOMINAL [Txt "FL_LORA_WAIT waiting for LoRa message"];
             EvAddAction ACTION_LORA_WAIT_MSG 1]
            ++ (if lora_count wait2_flagged >=? LORA_MSG_COUNT
                then
                  [EvLog LOG_NOMINAL
                     [Txt "FL_LORA_WAIT LoRa messages received"]]
                  ++ (if inst_substate wait2_flagged =? FL_LORA_WAIT1
                      then [EvLog LOG_NOMINAL [Txt "Entering FL_CONFIG_ECU"]]
                      else [EvAddAction ACTION_START_TELEMETRY 0;
                            EvLog LOG_NOMINAL [Txt "Entering FL_MEASURE"]])
                else [])
          else []) /\
  (if flag_value (action_flags wait2_flagged ACTION_LORA_WAIT_MSG)
   then True else state_of (FlightMode wait2_flagged) = before_switch wait2_flagged)).
Proof.
  split; [right; reflexivity |].
  apply (lora_wait_tick wait2_flagged).
  - right; reflexivity.
Defined.

Lemma measure_starts_motion_witness :
  (inst_substate measure_reel_in = FL_MEASURE) /\
  (flag_value (action_flags measure_reel_in ACTION_START_TELEMETRY) = false) /\
  (flag_value (action_flags measure_reel_in ACTION_REEL_OUT) || flag_value (action_flags measure_reel_in ACTION_REEL_IN) = true) /\
  (state_of (FlightMode measure_reel_in)
    = set_inst_substate FLM_MANUAL_MOTION
        (state_of
           (Flight_ManualMotion true
              (if flag_value (action_flags measure_reel_in ACTION_REEL_OUT)
               then set_mcb_motion MOTION_REEL_OUT
                      (consumed ACTION_REEL_OUT (before_switch measure_reel_in))
               else set_mcb_motion MOTION_REEL_IN
                      (consumed ACTION_REEL_IN (before_switch measure_reel_in))))) /\
  inst_substate (state_of (FlightMode measure_reel_in)) = FLM_MANUAL_MOTION /\
  events (FlightMode measure_reel_in)
    = events (statusMsgCheck STATUS_MSG_PERIOD_SECS measure_reel_in)
      ++ [EvLog LOG_NOMINAL
            [Txt (if flag_value (action_flags measure_reel_in ACTION_REEL_OUT)
                  then "Reel out manual command"
                  else "Reel in manual command")]]
      ++ events
           (Flight_ManualMotion true
              (if flag_value (action_flags measure_reel_in ACTION_REEL_OUT)
               then set_mcb_motion MOTION_REEL_OUT
                      (consumed ACTION_REEL_OUT (before_switch measure_reel_in))
               else set_mcb_motion MOTION_REEL_IN
                      (consumed ACTION_REEL_IN (before_switch measure_reel_in))))
      ++ [EvLog LOG_NOMINAL [Txt "Entering FLM_MANUAL_MOTION"];
          EvLog LOG_DEBUG [Txt "FL Measure"]]).
Proof.
  split; [reflexivity |].
  split; [reflexivity |].
  split; [reflexivity |].
  apply (measure_starts_motion measure_reel_in).
  - reflexivity.
  - reflexivity.
  - reflexivity.
Defined.

Lemma manual_motion_poll_witness :
  (NoDup flight_labels) /\
  (inst_substate motion_stopping = FLM_MANUAL_MOTION) /\
  (state_of (FlightMode motion_stopping)
    = (if result (Flight_ManualMotion false (before_switch motion_stopping))
       then set_inst_substate FLM_IDLE
              (state_of (Flight_ManualMotion false (before_switch motion_stopping)))
       else state_of (Flight_ManualMotion false (before_switch motion_stopping))) /\
  events (FlightMode motion_stopping)
    = events (statusMsgCheck STATUS_MSG_PERIOD_SECS motion_stopping)
      ++ events (Flight_ManualMotion false (before_switch motion_stopping))
      ++ (if result (Flight_ManualMotion false (before_switch motion_stopping))
          then [EvLog LOG_NOMINAL [Txt "Entering FLM_IDLE"]] else [])).
Proof.
  split; [exact sample_labels_distinct |].
  split; [reflexivity |].
  apply (manual_motion_poll motion_stopping).
  - exact sample_labels_distinct.
  - reflexivity.
Defined.

Lemma idle_starts_motion_witness :
  (NoDup flight_labels) /\
  (inst_substate idle_both_reels = FLM_IDLE) /\
  (flag_value (action_flags idle_both_reels ACTION_REEL_IN) || flag_value (action_flags idle_both_reels ACTION_REEL_OUT) = true) /\
  (state_of (FlightMode idle_both_reels)
    = set_inst_substate FLM_MANUAL_MOTION
        (state_of
           (Flight_ManualMotion true
              (if flag_value (action_flags idle_both_reels ACTION_REEL_IN)
               then set_mcb_motion MOTION_REEL_IN
                      (consumed ACTION_REEL_IN (before_switch idle_both_reels))
               else set_mcb_motion MOTION_REEL_OUT
                      (consumed ACTION_REEL_OUT (before_switch idle_both_reels))))) /\
  events (FlightMode idle_both_reels)
    = events (statusMsgCheck STATUS_MSG_PERIOD_SECS idle_both_reels)
      ++ [EvLog LOG_DEBUG [Txt "FL Manual Idle"];
          EvLog LOG_NOMINAL
            [Txt (if flag_value (action_flags idle_both_reels ACTION_REEL_IN)
                  then "Reel in manual command"
                  else "Reel out manual command")]]
      ++ events
           (Flight_ManualMotion true
              (if flag_value (action_flags idle_both_reels ACTION_REEL_IN)
               then set_mcb_motion MOTION_REEL_IN
                      (consumed ACTION_REEL_IN (before_switch idle_both_reels))
               else set_mcb_motion MOTION_REEL_OUT
                      (consumed ACTION_REEL_OUT (before_switch idle_both_reels))))
      ++ [EvLog LOG_NOMINAL [Txt "Entering FLM_MANUAL_MOTION"]]).
Proof.
  split; [exact sample_labels_distinct |].
  split; [reflexivity |].
  split; [reflexivity |].
  apply (idle_starts_motion idle_both_reels).
  - exact sample_labels_distinct.
  - reflexivity.
  - reflexivity.
Defined.

Lemma fixed_substates_tick_witness :
  (NoDup flight_labels) /\
  (inst_substate (object_at 253) = FL_ERROR \/ inst_substate (object_at 253) = FL_SHUTDOWN \/ inst_substate (object_at 253) = FL_EXIT) /\
  (state_of (FlightMode (object_at 253)) = state_of (RATS_Shutdown (before_switch (object_at 253))) /\
  events (FlightMode (object_at 253))
    = events (statusMsgCheck STATUS_MSG_PERIOD_SECS (object_at 253))
      ++ events (RATS_Shutdown (before_switch (object_at 253)))
      ++ [if inst_substate (object_at 253) =? FL_ERROR
          then EvLog LOG_DEBUG [Txt "In Error Sub State"]
          else if inst_substate (object_at 253) =? FL_SHUTDOWN
          then EvLog LOG_NOMINAL [Txt "Shutdown warning received in FL"]
          else EvLog LOG_NOMINAL [Txt "Exiting FL"]]).
Proof.
  split; [exact sample_labels_distinct |].
  split; [left; reflexivity |].
  apply (fixed_substates_tick (object_at 253)).
  - exact sample_labels_distinct.
  - left; reflexivity.
Defined.

Lemma unknown_substate_tick_witness :
  (~ In (inst_substate (object_at 100)) flight_labels) /\
  (state_of (FlightMode (object_at 100)) = before_switch (object_at 100) /\
  inst_substate (state_of (FlightMode (object_at 100))) = inst_substate (object_at 100) /\
  events (FlightMode (object_at 100))
    = events (statusMsgCheck STATUS_MSG_PERIOD_SECS (object_at 100))
      ++ [EvLog LOG_ERROR [Txt "Unknown manual substate"]]).
Proof.
  split; [exact sample_unknown_100 |].
  apply (unknown_substate_tick (object_at 100)).
  - exact sample_unknown_100.
Defined.

Lemma telemetry_detour_witness :
  (inst_substate measure_start_due = FL_MEASURE) /\
  (flag_value (action_flags measure_start_due ACTION_START_TELEMETRY) = true) /\
  (inst_substate (state_of (FlightMode measure_start_due)) = FL_SEND_TELEMETRY /\
  inst_substate (state_of (FlightMode (state_of (FlightMode measure_start_due))))
    = FL_MEASURE /\
  events (FlightMode (state_of (FlightMode measure_start_due)))
    = [EvAddAction ACTION_START_TELEMETRY 60;
       EvLog LOG_NOMINAL [Txt "Entering FL_MEASURE"]] /\
  action_flags (state_of (FlightMode (state_of (FlightMode measure_start_due))))
      ACTION_REEL_OUT
    = action_flags measure_start_due ACTION_REEL_OUT /\
  action_flags (state_of (FlightMode (state_of (FlightMode measure_start_due))))
      ACTION_REEL_IN
    = action_flags measure_start_due ACTION_REEL_IN /\
  flag_value
    (action_flags (state_of (FlightMode (state_of (FlightMode measure_start_due))))
       ACTION_START_TELEMETRY) = false /\
  mcb_motion (state_of (FlightMode (state_of (FlightMode measure_start_due))))
    = mcb_motion measure_start_due).
Proof.
  split; [reflexivity |].
  split; [reflexivity |].
  apply (telemetry_detour measure_start_due).
  - reflexivity.
  - reflexivity.
Defined.

Lemma warmup_never_regresses_witness :
  (FL_ENTRY <= inst_substate entry_time_valid <= FL_LORA_WAIT2) /\
  ((inst_substate entry_time_valid <= inst_substate (run_from silent 0%nat 7%nat entry_time_valid) <= FL_LORA_WAIT2 /\
   inst_substate (run_from silent 0%nat 7%nat entry_time_valid) <= inst_substate entry_time_valid + Z.of_nat 7%nat) \/
  (exists j, (j <= 7%nat)%nat /\
     inst_substate (run_from silent 0%nat j entry_time_valid) = FL_MEASURE)).
Proof.
  split; [unfold FL_ENTRY, FL_LORA_WAIT2, FL_SEND_TELEMETRY; simpl; lia |].
  apply (warmup_never_regresses silent 7%nat 0%nat entry_time_valid).
  - unfold FL_ENTRY, FL_LORA_WAIT2, FL_SEND_TELEMETRY; simpl; lia.
Defined.

Lemma lora_wait_never_times_out_witness :
  (inst_substate (object_at 2) = FL_LORA_WAIT1 \/ inst_substate (object_at 2) = FL_LORA_WAIT2) /\
  (lora_count (object_at 2) < LORA_MSG_COUNT) /\
  (forall j, lora_rx (silent j) = false) /\
  (inst_substate (run_from silent 0%nat 1000%nat (object_at 2)) = inst_substate (object_at 2) /\
  lora_count (run_from silent 0%nat 1000%nat (object_at 2)) = lora_count (object_at 2)).
Proof.
  split; [left; reflexivity |].
  split; [reflexivity |].
  split; [intros j; reflexivity |].
  apply (lora_wait_never_times_out silent 1000%nat 0%nat (object_at 2)).
  - left; reflexivity.
  - reflexivity.
  - intros j; reflexivity.
Defined.

Lemma start_telemetry_armed_only_witness :
  (forall b, never_schedules ACTION_START_TELEMETRY (Flight_ManualMotion b)) /\
  (never_schedules ACTION_START_TELEMETRY RATS_Shutdown) /\
  (In (EvAddAction ACTION_START_TELEMETRY 60) (events (FlightMode (object_at 6)))) /\
  ((inst_substate (object_at 6) = FL_LORA_WAIT2 /\ 60 = 0 \/
   inst_substate (object_at 6) = FL_SEND_TELEMETRY /\ 60 = 60) /\
  inst_substate (state_of (FlightMode (object_at 6))) = FL_MEASURE).
Proof.
  split; [exact sample_motion_never_arms |].
  split; [exact sample_shutdown_never_arms |].
  split; [simpl; auto |].
  apply (start_telemetry_armed_only (object_at 6) 60).
  - exact sample_motion_never_arms.
  - exact sample_shutdown_never_arms.
  - simpl; auto.
Defined.

